(** * Smart Recall Search: the [smart-search] edge function

    A shallow embedding of the query pipeline of the repository (the Deno
    function that stores a search query, retrieves knowledge-base rows, asks
    the language model and stores the result) together with the client-side
    [handleSearch] that submits queries to it.

    Conventions.
    - A JavaScript string is a [string]: a sequence of code units, here the
      Latin-1 range 0..255 (on which [toLowerCase] is a unit-by-unit map and
      stays inside the range).
    - A JavaScript number holding a count is a [nat], a time in milliseconds
      is a [Z], and the confidence score is the exact rational [Q] of which
      the IEEE double computed by the program is the nearest-double image:
      [Math.min] and [Math.max] commute with that (monotone) rounding, and
      the literals [0.3], [0.1], [0.95] stand for the doubles of the same
      spelling.
    - A stored confidence is the score as the column [NUMERIC(3,2)] of the
      schema keeps it: rounded to two decimals.
    - The store, the environment and the language-model service are external:
      their replies are fields of an [Env] the handler is run against, and
      every call to them is recorded in a trace. *)

From Stdlib Require Import Bool Arith Lia ZArith QArith Qminmax List.
From Stdlib Require Import Ascii String DecimalString.
From Stdlib Require Import Permutation Qround Qabs Lqa.
Import ListNotations.

Open Scope list_scope.
Open Scope string_scope.
Open Scope nat_scope.

(* ================================================================== *)
(** ** Strings: the built-ins the source calls *)
(* ================================================================== *)

Module Js.

(** Code units matched by the class [[,;]]. *)
Definition is_sep (c : ascii) : bool :=
  (Ascii.eqb c ",") || (Ascii.eqb c ";").

(** Code units matched by [\s] and stripped by [trim]: TAB, LF, VT, FF, CR,
    SPACE and NO-BREAK SPACE (the members of WhiteSpace and LineTerminator
    below 256). *)
Definition is_ws (c : ascii) : bool :=
  let n := nat_of_ascii c in
  ((9 <=? n) && (n <=? 13)) || (n =? 32) || (n =? 160).

(** [toLowerCase] on one code unit: A..Z, and the Latin-1 capitals
    U+00C0..U+00DE except the multiplication sign U+00D7, move up by 32. *)
Definition lower_char (c : ascii) : ascii :=
  let n := nat_of_ascii c in
  if ((65 <=? n) && (n <=? 90))
     || ((192 <=? n) && (n <=? 222) && negb (n =? 215))
  then ascii_of_nat (n + 32) else c.

Fixpoint toLowerCase (s : string) : string :=
  match s with
  | EmptyString => EmptyString
  | String c s' => String (lower_char c) (toLowerCase s')
  end.

Fixpoint trimStart (s : string) : string :=
  match s with
  | EmptyString => EmptyString
  | String c s' => if is_ws c then trimStart s' else s
  end.

Fixpoint trimEnd (s : string) : string :=
  match s with
  | EmptyString => EmptyString
  | String c s' =>
      match trimEnd s' with
      | EmptyString => if is_ws c then EmptyString else String c EmptyString
      | t => String c t
      end
  end.

(** [String.prototype.trim]. *)
Definition trim (s : string) : string := trimEnd (trimStart s).

(** Put one more code unit in front of the piece being read. *)
Definition cons_head (c : ascii) (ps : list string) : list string :=
  match ps with
  | [] => [String c EmptyString]
  | p :: ps' => String c p :: ps'
  end.

(** [s.split(/[,;]\s*/)], read left to right.  A separator ends the current
    piece, and the greedy [\s*] swallows the white space that follows it
    ([skip] is set while that white space is being swallowed).  The result
    has one more piece than there are matches; the empty string gives [[""]]
    since the pattern has no empty match. *)
Fixpoint split_sep_from (skip : bool) (s : string) : list string :=
  match s with
  | EmptyString => [EmptyString]
  | String c s' =>
      if is_sep c then EmptyString :: split_sep_from true s'
      else if skip && is_ws c then split_sep_from true s'
      else cons_head c (split_sep_from false s')
  end.

Definition split_sep (s : string) : list string := split_sep_from false s.

(** [s.split(/\s+/)]: a maximal run of white space is one match ([inrun] is
    set inside a run). *)
Fixpoint split_ws_from (inrun : bool) (s : string) : list string :=
  match s with
  | EmptyString => [EmptyString]
  | String c s' =>
      if is_ws c
      then (if inrun then split_ws_from true s'
            else EmptyString :: split_ws_from true s')
      else cons_head c (split_ws_from false s')
  end.

Definition split_ws (s : string) : list string := split_ws_from false s.

(** [s.includes(w)]: [w] occurs in [s] as a substring. *)
Fixpoint includes (s w : string) : bool :=
  if String.prefix w s then true
  else match s with
       | EmptyString => false
       | String _ s' => includes s' w
       end.

(** [xs.join(sep)]. *)
Definition join (sep : string) (xs : list string) : string :=
  String.concat sep xs.

(** [s.length > 0]. *)
Definition nonempty (s : string) : bool :=
  match s with EmptyString => false | String _ _ => true end.

(** A number of the non-negative integers printed by a template literal. *)
Definition number_to_string (n : nat) : string :=
  NilEmpty.string_of_uint (Nat.to_uint n).

End Js.

(* ================================================================== *)
(** ** The two pure helpers of the function *)
(* ================================================================== *)

(** One entry of [contextData]: the projection of a knowledge-base row. *)
Record ContextItem : Type := mkContextItem {
  title : string;
  content : string;
  tags : option (list string);
  created_at : string
}.

(** The local [fragments] of [extractFragments]. *)
Definition fragments_of (query : string) : list string :=
  filter (fun fragment => Js.nonempty fragment)
    (map (fun fragment => Js.trim fragment)
       (Js.split_sep (Js.toLowerCase query))).

Definition extractFragments (query : string) : list string :=
  let fragments := fragments_of query in
  if (1 <? List.length fragments)%nat then fragments else [query].

(** The body of the [forEach] of [calculateConfidenceScore]: one item's
    update of [(totalMatches, totalWords)]. *)
Definition score_step (queryWords : list string) (acc : nat * nat)
    (item : ContextItem) : nat * nat :=
  let content_ := Js.toLowerCase (title item ++ " " ++ content item) in
  let matches :=
    List.length (filter (fun word => Js.includes content_ word) queryWords) in
  (fst acc + matches, snd acc + List.length queryWords)%nat.

Definition calculateConfidenceScore (query : string)
    (contextData : list ContextItem) : Q :=
  if (List.length contextData =? 0)%nat then 0.3%Q
  else
    let queryWords := Js.split_ws (Js.toLowerCase query) in
    let totals := fold_left (score_step queryWords) contextData (0, 0)%nat in
    let totalMatches := fst totals in
    let totalWords := snd totals in
    Qmin 0.95
      (Qmax 0.1
         (inject_Z (Z.of_nat totalMatches) / inject_Z (Z.of_nat totalWords)))%Q.

(* ================================================================== *)
(** ** Records of the store, the request and the response *)
(* ================================================================== *)

(** A thrown value: an [Error] or the store's error object.  Only its
    [message] is read (by the [catch] clause). *)
Record JsError : Type := mkError { message : string }.

(** A row of [knowledge_base] as [select('*')] returns it. *)
Record KnowledgeRow : Type := mkKnowledgeRow {
  kb_id : string;
  kb_user_id : option string;
  kb_title : string;
  kb_content : string;
  kb_content_type : option string;
  kb_tags : option (list string);
  kb_created_at : string;
  kb_updated_at : string
}.

(** What the handler passes to [from('search_queries').insert]. *)
Record QueryInsert : Type := mkQueryInsert {
  qi_user_id : string;
  qi_query_text : string;
  qi_query_fragments : list string;
  qi_search_context_timestamp : string
}.

(** A stored row of [search_queries]: the inserted columns and the [id] the
    store generates (what [.select().single()] hands back). *)
Record QueryRow : Type := mkQueryRow {
  id : string;
  user_id : string;
  query_text : string;
  query_fragments : list string;
  search_context_timestamp : string
}.

(** The [result_data] object of a [search_results] row. *)
Record ResultData : Type := mkResultData {
  ai_response : string;
  knowledge_matches : list ContextItem;
  fragments : list string
}.

(** The columns of [search_results] the handler sets, as inserted and as
    stored. *)
Record ResultRow : Type := mkResultRow {
  query_id : string;
  result_data : ResultData;
  confidence_score : Q;
  processing_time_ms : Z
}.

(** The JSON body of the model service's answer, as far as the handler
    reads it: [candidates?.[0]?.content?.parts?.[0]?.text]. *)
Record GeminiPart : Type := mkPart { part_text : option string }.
Record GeminiContent : Type := mkGContent { parts : option (list GeminiPart) }.
Record GeminiCandidate : Type := mkCandidate {
  candidate_content : option GeminiContent
}.
Record GeminiData : Type := mkGeminiData {
  candidates : option (list GeminiCandidate)
}.

(** A resolved [fetch]: the status, the body as text, and the body as JSON
    ([None] when [.json()] rejects). *)
Record FetchResponse : Type := mkFetchResponse {
  fetch_status : nat;
  fetch_text : string;
  fetch_json : option GeminiData
}.

(** [Response.ok]: the status is in 200..299. *)
Definition fetch_ok (r : FetchResponse) : bool :=
  (200 <=? fetch_status r) && (fetch_status r <=? 299).

Inductive FetchOutcome : Type :=
| FetchRejected (e : JsError)
| FetchResolved (r : FetchResponse).

(** The body of an inbound request after [req.json()]. *)
Record SearchBody : Type := mkSearchBody {
  query : string;
  userId : string
}.

(** An inbound request: its method, and its body ([None] when [req.json()]
    rejects). *)
Record Request : Type := mkRequest {
  method : string;
  body : option SearchBody
}.

(** The body of a [Response] the handler builds. *)
Inductive Payload : Type :=
| NullBody
| SuccessBody (response : string) (knowledgeMatches : list ContextItem)
    (processingTime : Z) (queryId : string)
| ErrorBody (error : string).

(** A [Response]: its status and body (the CORS headers are the same on
    every response and are left out). *)
Record Response : Type := mkResponse {
  status : nat;
  payload : Payload
}.

(** What leaves the function: console lines and calls to the collaborators. *)
Inductive Event : Type :=
| ConsoleLog (label : string)
| ConsoleError (label : string) (detail : string)
| DbInsertQuery (ins : QueryInsert)
| DbSearchKnowledge (uid : string) (q : string)
| FetchGemini (apiKey : string) (prompt : string)
| DbInsertResult (row : ResultRow).

(** The replies of the collaborators during one invocation. *)
Record Env : Type := mkEnv {
  (** [Deno.env.get('GEMINI_API_KEY')] *)
  GEMINI_API_KEY : option string;
  (** the first [Date.now()], [new Date().toISOString()], the second
      [Date.now()] *)
  now_start : Z;
  now_iso : string;
  now_end : Z;
  (** the store's answer to the query insert: the new row's id, or an error *)
  reply_insert_query : QueryInsert -> string + JsError;
  (** the [data] of the knowledge search for a user id and a query: the
      matching rows, or [None] ([null]) when the search fails, which the
      store client reports in the ignored [error] field *)
  reply_search_knowledge : string -> string -> option (list KnowledgeRow);
  (** the outcome of the [fetch] for an API key and a prompt *)
  reply_fetch_gemini : string -> string -> FetchOutcome;
  (** the store's answer to the result insert: [None] or an error *)
  reply_insert_result : ResultRow -> option JsError
}.

(** The two tables the handler writes, and the trace of what it did. *)
Record State : Type := mkState {
  search_queries : list QueryRow;
  search_results : list ResultRow;
  trace : list Event
}.

(* ================================================================== *)
(** ** A state and exception monad for the handler *)
(* ================================================================== *)

Inductive Outcome (A : Type) : Type :=
| Returned (a : A)
| Thrown (e : JsError).
Arguments Returned {A} a.
Arguments Thrown {A} e.

Definition M (A : Type) : Type := Env -> State -> Outcome A * State.

Definition ret {A : Type} (a : A) : M A := fun _ st => (Returned a, st).

Definition bind {A B : Type} (m : M A) (k : A -> M B) : M B :=
  fun env st =>
    match m env st with
    | (Returned a, st') => k a env st'
    | (Thrown e, st') => (Thrown e, st')
    end.

Definition throw {A : Type} (e : JsError) : M A := fun _ st => (Thrown e, st).

(** [try { m } catch (error) { h error }]. *)
Definition try_catch {A : Type} (m : M A) (h : JsError -> M A) : M A :=
  fun env st =>
    match m env st with
    | (Returned a, st') => (Returned a, st')
    | (Thrown e, st') => h e env st'
    end.

Definition ask {A : Type} (f : Env -> A) : M A :=
  fun env st => (Returned (f env), st).

Definition emit (ev : Event) : M unit :=
  fun _ st =>
    (Returned tt,
     mkState (search_queries st) (search_results st) (trace st ++ [ev])%list).

Declare Scope js_scope.
Delimit Scope js_scope with js.
Notation "x <- m ;; k" := (bind m (fun x => k))
  (at level 61, m at next level, right associativity) : js_scope.
Notation "m ;;; k" := (bind m (fun _ => k))
  (at level 61, right associativity) : js_scope.
Open Scope js_scope.

(* ================================================================== *)
(** ** The collaborators *)
(* ================================================================== *)

Definition console_log (label : string) : M unit := emit (ConsoleLog label).

Definition console_error (label detail : string) : M unit :=
  emit (ConsoleError label detail).

(** [req.json()]. *)
Definition req_json (req : Request) : M SearchBody :=
  match body req with
  | Some b => ret b
  | None => throw (mkError "Unexpected end of JSON input")
  end.

Definition stored_query (new_id : string) (ins : QueryInsert) : QueryRow :=
  mkQueryRow new_id (qi_user_id ins) (qi_query_text ins)
    (qi_query_fragments ins) (qi_search_context_timestamp ins).

(** [supabase.from('search_queries').insert(ins).select().single()]: the
    pair [{data, error}] as a sum.  On success the row is in the table. *)
Definition insert_search_query (ins : QueryInsert) : M (QueryRow + JsError) :=
  fun env st =>
    let st1 :=
      mkState (search_queries st) (search_results st)
        (trace st ++ [DbInsertQuery ins])%list in
    match reply_insert_query env ins with
    | inl new_id =>
        let row := stored_query new_id ins in
        (Returned (inl row),
         mkState (search_queries st1 ++ [row])%list (search_results st1)
           (trace st1))
    | inr e => (Returned (inr e), st1)
    end.

(** [supabase.from('knowledge_base').select('*').eq('user_id', uid)
    .textSearch('content', q, {type: 'websearch'}).limit(5)]: the [data]
    field, as the store returns it (the limit of 5 is part of what the store
    is asked; the handler itself cuts nothing). *)
Definition search_knowledge (uid q : string) : M (option (list KnowledgeRow)) :=
  emit (DbSearchKnowledge uid q) ;;;
  rows <- ask (fun env => reply_search_knowledge env uid q) ;;
  ret rows.

(** [fetch(url with key, {method: 'POST', body: prompt and settings})]. *)
Definition fetch_gemini (apiKey prompt : string) : M FetchResponse :=
  emit (FetchGemini apiKey prompt) ;;;
  o <- ask (fun env => reply_fetch_gemini env apiKey prompt) ;;
  match o with
  | FetchRejected e => throw e
  | FetchResolved r => ret r
  end.

(** [geminiResponse.json()]. *)
Definition response_json (r : FetchResponse) : M GeminiData :=
  match fetch_json r with
  | Some d => ret d
  | None => throw (mkError "Unexpected token in JSON")
  end.

(** Rounding to the nearest integer, halves away from zero, as the store
    rounds a [numeric]. *)
Definition round_half_away (x : Q) : Z :=
  if Qle_bool 0 x then Qfloor (x + (1 # 2))
  else (- Qfloor (- x + (1 # 2)))%Z.

(** What a column declared [NUMERIC(3,2)] keeps of a number: its two-decimal
    rounding, in lowest terms.  The number arrives as the shortest decimal
    text of the double, which rounds as the exact quotient does (a tie is a
    short decimal, printed as such).  The store refuses a number of
    magnitude 9.995 or more; a score is at most 0.95. *)
Definition numeric_3_2 (x : Q) : Q :=
  Qred (round_half_away (x * 100) # 100).

(** The row of [search_results] the store keeps for an inserted one:
    [confidence_score NUMERIC(3,2)]; the other columns hold what was
    inserted. *)
Definition stored_result (row : ResultRow) : ResultRow :=
  mkResultRow (query_id row) (result_data row)
    (numeric_3_2 (confidence_score row)) (processing_time_ms row).

(** [supabase.from('search_results').insert(row)]: the [error] field.  On
    success the table holds the row as the store keeps it. *)
Definition insert_search_result (row : ResultRow) : M (option JsError) :=
  fun env st =>
    let st1 :=
      mkState (search_queries st) (search_results st)
        (trace st ++ [DbInsertResult row])%list in
    match reply_insert_result env row with
    | None =>
        (Returned None,
         mkState (search_queries st1)
           (search_results st1 ++ [stored_result row])%list
           (trace st1))
    | Some e => (Returned (Some e), st1)
    end.

(* ================================================================== *)
(** ** The handler *)
(* ================================================================== *)

Definition dquote : string := String "034"%char EmptyString.
Definition nl : string := String "010"%char EmptyString.

(** [knowledgeResults?.map(item => ({title, content, tags, created_at}))
    || []]. *)
Definition project_row (item : KnowledgeRow) : ContextItem :=
  mkContextItem (kb_title item) (kb_content item) (kb_tags item)
    (kb_created_at item).

Definition context_of (knowledgeResults : option (list KnowledgeRow))
  : list ContextItem :=
  match knowledgeResults with
  | Some rows => map project_row rows
  | None => []
  end.

(** [item.tags?.join(', ') || 'none']. *)
Definition render_tags (t : option (list string)) : string :=
  match t with
  | Some ts => if Js.nonempty (Js.join ", " ts) then Js.join ", " ts else "none"
  | None => "none"
  end.

Definition render_item (item : ContextItem) : string :=
  "Title: " ++ title item ++ nl ++ "Content: " ++ content item ++ nl
  ++ "Tags: " ++ render_tags (tags item) ++ nl ++ "---".

(** The template literal [prompt]. *)
Definition build_prompt (query_ : string) (contextData : list ContextItem)
  : string :=
  "You are a smart search assistant that helps users find information from incomplete or fragmented queries. "
  ++ nl ++ nl
  ++ "User's query: " ++ dquote ++ query_ ++ dquote ++ nl ++ nl
  ++ "Available knowledge base content:" ++ nl
  ++ Js.join nl (map render_item contextData) ++ nl ++ nl
  ++ "Task: " ++ nl
  ++ "1. Analyze the user's query for fragments and incomplete information" ++ nl
  ++ "2. If knowledge base content is available, find the most relevant matches" ++ nl
  ++ "3. If no direct matches, suggest what the user might be looking for based on the fragments" ++ nl
  ++ "4. Provide a helpful, natural response that reconstructs the missing information" ++ nl
  ++ "5. If the query is too vague, ask clarifying questions" ++ nl ++ nl
  ++ "Respond in a helpful, conversational tone. Focus on being accurate and useful.".

(** [geminiData.candidates?.[0]?.content?.parts?.[0]?.text]. *)
Definition first_text (geminiData : GeminiData) : option string :=
  match candidates geminiData with
  | Some (c :: _) =>
      match candidate_content c with
      | Some ct =>
          match parts ct with
          | Some (p :: _) => part_text p
          | _ => None
          end
      | None => None
      end
  | _ => None
  end.

(** [... || 'No response generated']. *)
Definition ai_response_of (geminiData : GeminiData) : string :=
  match first_text geminiData with
  | Some t => if Js.nonempty t then t else "No response generated"
  | None => "No response generated"
  end.

(** [!geminiApiKey]: the variable is unset or empty. *)
Definition key_missing (k : option string) : bool :=
  match k with
  | Some key => negb (Js.nonempty key)
  | None => true
  end.

(** [error.message || 'An error occurred during search processing']. *)
Definition error_text (e : JsError) : string :=
  if Js.nonempty (message e) then message e
  else "An error occurred during search processing".

(** The [try] block of the handler. *)
Definition search (req : Request) : M Response :=
  b <- req_json req ;;
  let query_ := query b in
  let userId_ := userId b in
  console_log "Smart search request:" ;;;
  startTime <- ask now_start ;;
  stamp <- ask now_iso ;;
  (* Store the search query in database *)
  stored <- insert_search_query
              (mkQueryInsert userId_ query_ (extractFragments query_) stamp) ;;
  match stored with
  | inr queryError =>
      console_error "Error storing query:" (message queryError) ;;;
      throw queryError
  | inl queryRecord =>
      (* Search in knowledge base first *)
      knowledgeResults <- search_knowledge userId_ query_ ;;
      (* Prepare context for Gemini *)
      let contextData := context_of knowledgeResults in
      (* Use Gemini to process the query intelligently *)
      geminiApiKey <- ask GEMINI_API_KEY ;;
      match geminiApiKey with
      | None => throw (mkError "Gemini API key not configured")
      | Some key =>
          if negb (Js.nonempty key)
          then throw (mkError "Gemini API key not configured")
          else
            geminiResponse <- fetch_gemini key (build_prompt query_ contextData) ;;
            if negb (fetch_ok geminiResponse)
            then
              console_error "Gemini API error:" (fetch_text geminiResponse) ;;;
              throw (mkError ("Gemini API error: "
                              ++ Js.number_to_string (fetch_status geminiResponse)))
            else
              geminiData <- response_json geminiResponse ;;
              let aiResponse := ai_response_of geminiData in
              endTime <- ask now_end ;;
              let processingTime_ := (endTime - startTime)%Z in
              (* Store the search result *)
              resultError <- insert_search_result
                (mkResultRow (id queryRecord)
                   (mkResultData aiResponse contextData (extractFragments query_))
                   (calculateConfidenceScore query_ contextData)
                   processingTime_) ;;
              match resultError with
              | Some e => console_error "Error storing result:" (message e)
              | None => ret tt
              end ;;;
              ret (mkResponse 200
                     (SuccessBody aiResponse contextData processingTime_
                        (id queryRecord)))
      end
  end.

(** The function passed to [serve]. *)
Definition handler (req : Request) : M Response :=
  (* Handle CORS preflight requests *)
  if String.eqb (method req) "OPTIONS" then ret (mkResponse 200 NullBody)
  else
    try_catch (search req)
      (fun error_ =>
         console_error "Error in smart-search function:" (message error_) ;;;
         ret (mkResponse 500 (ErrorBody (error_text error_)))).

(* ================================================================== *)
(** ** The client: [handleSearch] of the search interface *)
(* ================================================================== *)

(** The toast [handleSearch] ends with. *)
Inductive Toast : Type :=
| SearchQueryRequired
| AuthenticationRequired
| SearchComplete (processingTime : Z)
| SearchError.

(** [handleSearch], for the text of the query box and the signed-in user's
    id ([None] when [getUser] finds no user), on the path where [getUser]
    resolves and the request and its answer get through ([handleSearch_via]
    below has the other paths).  [functions.invoke] posts the body to the
    handler and reports an error for a response outside 200..299. *)
Definition handleSearch (query_ : string) (user : option string) : M Toast :=
  if negb (Js.nonempty (Js.trim query_)) then ret SearchQueryRequired
  else
    match user with
    | None => ret AuthenticationRequired
    | Some uid =>
        resp <- handler (mkRequest "POST" (Some (mkSearchBody query_ uid))) ;;
        match payload resp with
        | SuccessBody _ _ t _ =>
            if (200 <=? status resp) && (status resp <=? 299)
            then ret (SearchComplete t) else ret SearchError
        | _ => ret SearchError
        end
    end.

(** How [getUser] ends: it rejects, or resolves with the signed-in user's
    id, if any. *)
Inductive GetUser : Type :=
| GetUserRejected (e : JsError)
| GetUserResolved (user : option string).

(** What happens to the request between the client and the function:
    [functions.invoke] reports a transport or relay error without the
    handler having run; or the handler runs and its answer is lost on the
    way back; or the answer arrives. *)
Inductive Link : Type :=
| LinkDown
| LinkLosesAnswer
| LinkUp.

(** [handleSearch] with every path of its [try] block: whatever is thrown
    inside, by [getUser], by [functions.invoke]'s error or by the handling
    of the answer, ends in the toast of the [catch] clause. *)
Definition handleSearch_via (query_ : string) (auth : GetUser) (link : Link)
  : M Toast :=
  if negb (Js.nonempty (Js.trim query_)) then ret SearchQueryRequired
  else
    match auth with
    | GetUserRejected _ => ret SearchError
    | GetUserResolved None => ret AuthenticationRequired
    | GetUserResolved (Some uid) =>
        match link with
        | LinkDown => ret SearchError
        | LinkLosesAnswer =>
            handler (mkRequest "POST" (Some (mkSearchBody query_ uid))) ;;;
            ret SearchError
        | LinkUp =>
            resp <- handler (mkRequest "POST" (Some (mkSearchBody query_ uid))) ;;
            match payload resp with
            | SuccessBody _ _ t _ =>
                if (200 <=? status resp) && (status resp <=? 299)
                then ret (SearchComplete t) else ret SearchError
            | _ => ret SearchError
            end
        end
    end.

(* ================================================================== *)
(** ** The specification's wording, for comparison with the code *)
(* ================================================================== *)

Module Spec.

(** Splitting on the separators: every comma and every semicolon ends a
    piece. *)
Fixpoint split_on_separators (s : string) : list string :=
  match s with
  | EmptyString => [EmptyString]
  | String c s' =>
      if Js.is_sep c then EmptyString :: split_on_separators s'
      else Js.cons_head c (split_on_separators s')
  end.

(** The parts of a query: split on the separators, each piece trimmed and
    lowercased, empty pieces dropped, in the original order. *)
Definition parts (q : string) : list string :=
  filter Js.nonempty
    (map (fun p => Js.toLowerCase (Js.trim p)) (split_on_separators q)).

(** The query holds no comma and no semicolon. *)
Fixpoint no_separator (s : string) : bool :=
  match s with
  | EmptyString => true
  | String c s' => negb (Js.is_sep c) && no_separator s'
  end.

(** The number of words of [ws] that occur in [text]. *)
Definition count_in (text : string) (ws : list string) : nat :=
  List.length (filter (fun w => Js.includes text w) ws).

Fixpoint sum (ns : list nat) : nat :=
  match ns with
  | [] => 0
  | n :: ns' => n + sum ns'
  end.

(** The clamp [min(0.95, max(0.1, m / w))]. *)
Definition clamp (m w : nat) : Q :=
  (Qmin 0.95 (Qmax 0.1 (inject_Z (Z.of_nat m) / inject_Z (Z.of_nat w))))%Q.

(** The score as the specification words it: the query tokenized on white
    space as it stands, and each item's text the lowercased concatenation
    of its title and its content. *)
Definition confidence_as_worded (q : string) (items : list ContextItem) : Q :=
  match items with
  | [] => 0.3%Q
  | _ =>
      let ws := Js.split_ws q in
      clamp
        (sum (map (fun it => count_in (Js.toLowerCase (title it ++ content it)) ws)
                items))
        (List.length ws * List.length items)
  end.

End Spec.

(* ================================================================== *)
(** ** Concrete inputs used by the examples below *)
(* ================================================================== *)

Module Demo.

Definition empty_state : State := mkState [] [] [].

Definition answer : GeminiData :=
  mkGeminiData
    (Some [mkCandidate (Some (mkGContent (Some [mkPart (Some "Try the Q3 deck.")])))]).

Definition deck_row : KnowledgeRow :=
  mkKnowledgeRow "k1" (Some "u1") "Q3 Marketing Deck"
    "presentation about marketing strategy" None (Some ["work"])
    "2025-01-01" "2025-01-02".

Definition deck : ContextItem := project_row deck_row.

(** Every collaborator answers. *)
Definition env_ok : Env :=
  mkEnv (Some "key") 1000 "2025-01-03T00:00:00.000Z" 1250
    (fun _ => inl "q1")
    (fun _ _ => Some [deck_row])
    (fun _ _ => FetchResolved (mkFetchResponse 200 "" (Some answer)))
    (fun _ => None).

(** The model service answers 500. *)
Definition env_model_500 : Env :=
  mkEnv (Some "key") 1000 "2025-01-03T00:00:00.000Z" 1250
    (fun _ => inl "q1")
    (fun _ _ => Some [deck_row])
    (fun _ _ => FetchResolved (mkFetchResponse 500 "boom" None))
    (fun _ => None).

(** The knowledge search fails. *)
Definition env_no_retrieval : Env :=
  mkEnv (Some "key") 1000 "2025-01-03T00:00:00.000Z" 1250
    (fun _ => inl "q1")
    (fun _ _ => None)
    (fun _ _ => FetchResolved (mkFetchResponse 200 "" (Some answer)))
    (fun _ => None).

(** The result insert fails. *)
Definition env_result_lost : Env :=
  mkEnv (Some "key") 1000 "2025-01-03T00:00:00.000Z" 1250
    (fun _ => inl "q1")
    (fun _ _ => Some [deck_row])
    (fun _ _ => FetchResolved (mkFetchResponse 200 "" (Some answer)))
    (fun _ => Some (mkError "row-level security")).

Definition post (q : string) : Request :=
  mkRequest "POST" (Some (mkSearchBody q "u1")).

End Demo.

(* ================================================================== *)
(** ** Vocabulary of the statements about the handler *)
(* ================================================================== *)

(** The row the handler inserts into [search_queries] for a body. *)
Definition query_insert_of (env : Env) (b : SearchBody) : QueryInsert :=
  mkQueryInsert (userId b) (query b) (extractFragments (query b)) (now_iso env).

(** The context the handler builds for a body: the projections of the rows
    of the knowledge search, or nothing when the search failed. *)
Definition context_for (env : Env) (b : SearchBody) : list ContextItem :=
  context_of (reply_search_knowledge env (userId b) (query b)).

(** The row the handler inserts into [search_results] once the model has
    answered [d] for the query stored under [new_id]. *)
Definition result_row_of (env : Env) (b : SearchBody) (new_id : string)
    (d : GeminiData) : ResultRow :=
  mkResultRow new_id
    (mkResultData (ai_response_of d) (context_for env b)
       (extractFragments (query b)))
    (calculateConfidenceScore (query b) (context_for env b))
    (now_end env - now_start env)%Z.

(** What the handler has done by the time it has an answer of the model:
    the state after the query insert, the knowledge search and the call of
    the model. *)
Definition asked (env : Env) (st : State) (b : SearchBody)
    (new_id key : string) : State :=
  mkState
    (search_queries st ++ [stored_query new_id (query_insert_of env b)])
    (search_results st)
    (trace st
     ++ [ConsoleLog "Smart search request:";
         DbInsertQuery (query_insert_of env b);
         DbSearchKnowledge (userId b) (query b);
         FetchGemini key (build_prompt (query b) (context_for env b))]).

(** The model service answers the call the handler makes for this request
    with a status outside 200..299. *)
Definition model_answers_non_2xx (env : Env) (req : Request) : Prop :=
  forall b key,
    body req = Some b ->
    GEMINI_API_KEY env = Some key ->
    exists r,
      reply_fetch_gemini env key (build_prompt (query b) (context_for env b))
      = FetchResolved r
      /\ fetch_ok r = false.

(** The model cannot be used: no credentials, or a non-2xx answer. *)
Definition model_unavailable (env : Env) (req : Request) : Prop :=
  key_missing (GEMINI_API_KEY env) = true \/ model_answers_non_2xx env req.

(* ================================================================== *)
(** ** The calls a run makes *)
(* ================================================================== *)

(** The four calls the handler can make to its collaborators. *)
Inductive CallKind : Type :=
| InsertQueryCall
| SearchKnowledgeCall
| ModelCall
| InsertResultCall.

Definition call_kind (ev : Event) : option CallKind :=
  match ev with
  | ConsoleLog _ => None
  | ConsoleError _ _ => None
  | DbInsertQuery _ => Some InsertQueryCall
  | DbSearchKnowledge _ _ => Some SearchKnowledgeCall
  | FetchGemini _ _ => Some ModelCall
  | DbInsertResult _ => Some InsertResultCall
  end.

(** The calls among the events of a trace, in order. *)
Fixpoint calls (evs : list Event) : list CallKind :=
  match evs with
  | [] => []
  | ev :: evs' =>
      match call_kind ev with
      | Some k => k :: calls evs'
      | None => calls evs'
      end
  end.

(** The order in which the source makes its calls. *)
Definition call_order : list CallKind :=
  [InsertQueryCall; SearchKnowledgeCall; ModelCall; InsertResultCall].

(* ================================================================== *)
(** ** Shapes of strings *)
(* ================================================================== *)

(** Every code unit of the string is white space. *)
Fixpoint all_ws (s : string) : bool :=
  match s with
  | EmptyString => true
  | String c s' => Js.is_ws c && all_ws s'
  end.

(** No code unit of the string is in the class [p]. *)
Fixpoint free_of (p : ascii -> bool) (s : string) : bool :=
  match s with
  | EmptyString => true
  | String c s' => negb (p c) && free_of p s'
  end.

(** The string does not start with white space. *)
Definition starts_clean (s : string) : bool :=
  match s with
  | EmptyString => true
  | String c _ => negb (Js.is_ws c)
  end.

(* ================================================================== *)
(** ** The client components: history, tags and the knowledge form *)
(* ================================================================== *)

Module Ui.

(** [setSearchHistory(prev => [query, ...prev.slice(0, 4)])], the update the
    search interface makes after a successful search. *)
Definition push_history (query_ : string) (prev : list string) : list string :=
  query_ :: firstn 4 prev.

(** The history after the successful searches [qs], oldest first, starting
    from the empty history of a fresh component. *)
Definition history_after (qs : list string) : list string :=
  fold_left (fun prev q => push_history q prev) qs [].

(** [s.split(',')]. *)
Fixpoint split_comma (s : string) : list string :=
  match s with
  | EmptyString => [EmptyString]
  | String c s' =>
      if Ascii.eqb c "," then EmptyString :: split_comma s'
      else Js.cons_head c (split_comma s')
  end.

(** The [tags] of [handleSubmit]:
    [formData.tags.split(',').map(tag => tag.trim())
       .filter(tag => tag.length > 0)]. *)
Definition parse_tags (s : string) : list string :=
  filter (fun tag => Js.nonempty tag)
    (map (fun tag => Js.trim tag) (split_comma s)).

(** The state [formData] of the knowledge manager. *)
Record FormData : Type := mkForm {
  form_title : string;
  form_content : string;
  form_content_type : string;
  form_tags : string
}.

Definition blank_form : FormData := mkForm "" "" "document" "".

(** The [KnowledgeItem] of the knowledge manager. *)
Record KnowledgeItem : Type := mkItem {
  item_id : string;
  item_title : string;
  item_content : string;
  item_content_type : string;
  item_tags : list string;
  item_created_at : string;
  item_updated_at : string
}.

(** The [itemData] sent to the store. *)
Record ItemData : Type := mkItemData {
  data_title : string;
  data_content : string;
  data_content_type : string;
  data_tags : list string;
  data_user_id : string
}.

(** The part of the component state the handlers below read and write. *)
Record Manager : Type := mkManager {
  formData : FormData;
  editingItem : option KnowledgeItem;
  isDialogOpen : bool
}.

Definition handleEdit (item : KnowledgeItem) (m : Manager) : Manager :=
  mkManager
    (mkForm (item_title item) (item_content item) (item_content_type item)
       (Js.join ", " (item_tags item)))
    (Some item) true.

Definition resetForm (m : Manager) : Manager :=
  mkManager blank_form None (isDialogOpen m).

(** The write [handleSubmit] sends to [knowledge_base]. *)
Inductive KbRequest : Type :=
| KbUpdate (target : string) (d : ItemData)
| KbInsert (d : ItemData).

Inductive SubmitToast : Type :=
| RequiredFields
| SaveError
| ItemUpdated
| ItemAdded.

(** [handleSubmit], for the signed-in user's id ([None] when [getUser] finds
    no user) and the store's answer to a write ([None] or an error): the
    component state it leaves, its toast, and the write it sent, if any.
    (The reload of the list that follows a successful write is not part of
    this model.) *)
Definition handleSubmit (m : Manager) (user : option string)
    (reply : KbRequest -> option JsError)
  : Manager * SubmitToast * option KbRequest :=
  if negb (Js.nonempty (Js.trim (form_title (formData m))))
     || negb (Js.nonempty (Js.trim (form_content (formData m))))
  then (m, RequiredFields, None)
  else
    match user with
    | None => (m, SaveError, None)
    | Some uid =>
        let tags_ := parse_tags (form_tags (formData m)) in
        let itemData :=
          mkItemData (form_title (formData m)) (form_content (formData m))
            (form_content_type (formData m)) tags_ uid in
        let request :=
          match editingItem m with
          | Some it => KbUpdate (item_id it) itemData
          | None => KbInsert itemData
          end in
        match reply request with
        | Some _ => (m, SaveError, Some request)
        | None =>
            (mkManager blank_form None false,
             match editingItem m with
             | Some _ => ItemUpdated
             | None => ItemAdded
             end,
             Some request)
        end
    end.

(** A list of tags as [parse_tags] produces them: every tag non-empty,
    trimmed and without a comma. *)
Definition tag_ok (t : string) : bool :=
  Js.nonempty t && String.eqb (Js.trim t) t
  && free_of (fun c => Ascii.eqb c ",") t.

End Ui.

(** The text of an item the score looks into. *)
Definition item_text (item : ContextItem) : string :=
  Js.toLowerCase (title item ++ " " ++ content item).

(* ================================================================== *)
(** ** Facts about the string built-ins *)
(* ================================================================== *)

Module JsFacts.
Import Js.

Ltac by_cases_on_char c :=
  destruct c as [[] [] [] [] [] [] [] []]; vm_compute; reflexivity.

Lemma is_sep_lower (c : ascii) : is_sep (lower_char c) = is_sep c.
Proof. by_cases_on_char c. Qed.

Lemma is_ws_lower (c : ascii) : is_ws (lower_char c) = is_ws c.
Proof. by_cases_on_char c. Qed.

Lemma trimStart_idem (s : string) : trimStart (trimStart s) = trimStart s.
Proof.
  induction s as [|c s IH]; simpl; [reflexivity|].
  destruct (is_ws c) eqn:E; [exact IH|]. simpl. now rewrite E.
Qed.

Lemma trim_trimStart (s : string) : trim (trimStart s) = trim s.
Proof. unfold trim. now rewrite trimStart_idem. Qed.

Lemma trimStart_lower (s : string) :
  trimStart (toLowerCase s) = toLowerCase (trimStart s).
Proof.
  induction s as [|c s IH]; simpl; [reflexivity|].
  rewrite is_ws_lower. destruct (is_ws c); [exact IH | reflexivity].
Qed.

Lemma trimEnd_lower (s : string) :
  trimEnd (toLowerCase s) = toLowerCase (trimEnd s).
Proof.
  induction s as [|c s IH]; simpl; [reflexivity|].
  rewrite IH, is_ws_lower.
  destruct (trimEnd s) as [|d t]; simpl; [|reflexivity].
  destruct (is_ws c); reflexivity.
Qed.

Lemma trim_lower (s : string) : trim (toLowerCase s) = toLowerCase (trim s).
Proof. unfold trim. now rewrite trimStart_lower, trimEnd_lower. Qed.

Lemma split_on_separators_cons (s : string) :
  exists p ps, Spec.split_on_separators s = p :: ps.
Proof.
  induction s as [|c s [p [ps IH]]]; simpl; [now eexists; eexists|].
  destruct (is_sep c); [now eexists; eexists|].
  rewrite IH. simpl. now eexists; eexists.
Qed.

(** The pieces of the pattern [[,;]\s*] are the pieces cut at the separators,
    each one after the first with its leading white space removed. *)
Lemma split_sep_from_pieces (s : string) : forall skip : bool,
  split_sep_from skip s
  = match Spec.split_on_separators s with
    | [] => []
    | p :: ps => (if skip then trimStart p else p) :: map trimStart ps
    end.
Proof.
  induction s as [|c s IH]; intros; simpl.
  - now destruct skip.
  - destruct (is_sep c) eqn:Es.
    + rewrite (IH true).
      destruct (split_on_separators_cons s) as [p [ps E]]. rewrite E.
      now destruct skip.
    + destruct (split_on_separators_cons s) as [p [ps E]].
      destruct skip; simpl.
      * destruct (is_ws c) eqn:Ew.
        -- rewrite (IH true), E. simpl. now rewrite Ew.
        -- rewrite (IH false), E. simpl. now rewrite Ew.
      * rewrite (IH false), E. reflexivity.
Qed.

Lemma map_trim_split_sep (s : string) :
  map trim (split_sep s) = map trim (Spec.split_on_separators s).
Proof.
  unfold split_sep. rewrite split_sep_from_pieces.
  destruct (Spec.split_on_separators s) as [|p ps]; [reflexivity|].
  simpl. f_equal. rewrite map_map.
  apply map_ext. intros; apply trim_trimStart.
Qed.

Lemma split_on_separators_lower (s : string) :
  Spec.split_on_separators (toLowerCase s)
  = map toLowerCase (Spec.split_on_separators s).
Proof.
  induction s as [|c s IH]; simpl; [reflexivity|].
  rewrite is_sep_lower, IH.
  destruct (is_sep c); [reflexivity|].
  now destruct (Spec.split_on_separators s).
Qed.

Lemma split_on_separators_plain (s : string) :
  Spec.no_separator s = true -> Spec.split_on_separators s = [s].
Proof.
  induction s as [|c s IH]; simpl; [reflexivity|].
  destruct (is_sep c); simpl; [discriminate|].
  intros H. now rewrite IH.
Qed.

End JsFacts.

(* ================================================================== *)
(** ** The built-ins and the helpers on small inputs *)
(* ================================================================== *)

Example split_sep_edges :
  Js.split_sep "a, ,b;;c" = ["a"; ""; "b"; ""; "c"]
  /\ Js.split_sep "a,  ;b" = ["a"; ""; "b"]
  /\ Js.split_sep "" = [""].
Proof. repeat split; reflexivity. Qed.

Example split_ws_edges :
  Js.split_ws " a  b " = [""; "a"; "b"; ""] /\ Js.split_ws "" = [""].
Proof. split; reflexivity. Qed.

Example trim_edges :
  Js.trim "  a b  " = "a b" /\ Js.trim "   " = "" /\ Js.trim "" = "".
Proof. repeat split; reflexivity. Qed.

Example includes_edges :
  Js.includes "ab cd" "b c" = true
  /\ Js.includes "ab cd" "bc" = false
  /\ Js.includes "" "" = true.
Proof. repeat split; reflexivity. Qed.

Example extract_blue_folder :
  extractFragments "Blue folder, last week;  something about AI"
  = ["blue folder"; "last week"; "something about ai"].
Proof. reflexivity. Qed.

Example extract_empty : extractFragments "" = [""].
Proof. reflexivity. Qed.

(** A piece of white space only is empty once trimmed, and does not count
    as a part. *)
Example extract_blank_piece :
  Spec.parts " ,b" = ["b"] /\ extractFragments " ,b" = [" ,b"].
Proof. split; reflexivity. Qed.

Example score_half :
  calculateConfidenceScore "marketing budget" [Demo.deck] = (1 # 2)%Q.
Proof. reflexivity. Qed.

Example prompt_without_context :
  build_prompt "q" []
  = ("You are a smart search assistant that helps users find information from incomplete or fragmented queries. "
     ++ nl ++ nl ++ "User's query: " ++ dquote ++ "q" ++ dquote ++ nl ++ nl
     ++ "Available knowledge base content:" ++ nl ++ nl ++ nl
     ++ "Task: " ++ nl
     ++ "1. Analyze the user's query for fragments and incomplete information" ++ nl
     ++ "2. If knowledge base content is available, find the most relevant matches" ++ nl
     ++ "3. If no direct matches, suggest what the user might be looking for based on the fragments" ++ nl
     ++ "4. Provide a helpful, natural response that reconstructs the missing information" ++ nl
     ++ "5. If the query is too vague, ask clarifying questions" ++ nl ++ nl
     ++ "Respond in a helpful, conversational tone. Focus on being accurate and useful.").
Proof. reflexivity. Qed.

(* ================================================================== *)
(** ** Fragment extraction *)
(* ================================================================== *)

(** The list the code filters is the list of parts of the specification:
    lowercasing first or last, and letting the pattern or [trim] remove the
    white space after a separator, make no difference. *)
Lemma fragments_of_parts (q : string) : fragments_of q = Spec.parts q.
Proof.
  unfold fragments_of, Spec.parts.
  rewrite JsFacts.map_trim_split_sep, JsFacts.split_on_separators_lower.
  rewrite map_map. f_equal.
  apply map_ext. intros; apply JsFacts.trim_lower.
Qed.

Lemma extractFragments_cases (q : string) :
  extractFragments q
  = if 1 <? List.length (Spec.parts q) then Spec.parts q else [q].
Proof. unfold extractFragments. now rewrite fragments_of_parts. Qed.

Lemma parts_plain (q : string) :
  Spec.no_separator q = true ->
  Spec.parts q = filter Js.nonempty [Js.toLowerCase (Js.trim q)].
Proof.
  intros H. unfold Spec.parts.
  now rewrite (JsFacts.split_on_separators_plain q H).
Qed.

Lemma filter_singleton_short {A : Type} (f : A -> bool) (a : A) :
  List.length (filter f [a]) <= 1.
Proof. simpl. destruct (f a); simpl; lia. Qed.

(** C2, as the code has it: for every query string that holds no comma and
    no semicolon, fragment extraction returns the one-element sequence whose
    element is the query itself, neither trimmed nor lowercased. *)
Theorem extractFragments_no_separator (q : string) :
  Spec.no_separator q = true -> extractFragments q = [q].
Proof.
  intros H. rewrite extractFragments_cases, (parts_plain q H).
  pose proof (filter_singleton_short Js.nonempty (Js.toLowerCase (Js.trim q))) as L.
  destruct (Nat.ltb_spec 1 (List.length
              (filter Js.nonempty [Js.toLowerCase (Js.trim q)]))) as [G|G].
  - lia.
  - reflexivity.
Qed.

Lemma extractFragments_no_separator_witness :
  extractFragments " Hello World " = [" Hello World "].
Proof. apply (extractFragments_no_separator " Hello World "). reflexivity. Defined.

(** C2 as stated fails: the non-empty query [Hello] has no separator, and
    fragment extraction does not return its trimmed lowercase form. *)
Lemma extractFragments_no_separator_not_lowercased :
  "Hello" <> ""
  /\ Spec.no_separator "Hello" = true
  /\ extractFragments "Hello" <> [Js.toLowerCase (Js.trim "Hello")].
Proof. repeat split; vm_compute; discriminate. Qed.

(** C5: for every query whose split on commas and semicolons yields at least
    two non-empty parts, fragment extraction returns exactly those parts,
    trimmed and lowercased, empty ones dropped, in their original order. *)
Theorem extractFragments_parts (q : string) :
  2 <= List.length (Spec.parts q) -> extractFragments q = Spec.parts q.
Proof.
  intros H. rewrite extractFragments_cases.
  destruct (Nat.ltb_spec 1 (List.length (Spec.parts q))) as [G|G].
  - reflexivity.
  - lia.
Qed.

Lemma extractFragments_parts_witness :
  extractFragments "Blue folder, last week;; something about AI ,"
  = ["blue folder"; "last week"; "something about ai"].
Proof.
  apply (extractFragments_parts "Blue folder, last week;; something about AI ,").
  vm_compute. lia.
Defined.

(** C6: for every non-empty query whose split on commas and semicolons
    yields at most one non-empty piece, fragment extraction returns the
    single-element sequence holding the whole original query; and for no
    non-empty query is the returned sequence empty. *)
Theorem extractFragments_whole_query (q : string) :
  q <> "" ->
  (List.length (Spec.parts q) <= 1 -> extractFragments q = [q])
  /\ extractFragments q <> [].
Proof.
  intros _. rewrite extractFragments_cases.
  destruct (Nat.ltb_spec 1 (List.length (Spec.parts q))) as [G|G]; split.
  - lia.
  - destruct (Spec.parts q); [simpl in G; lia | discriminate].
  - reflexivity.
  - discriminate.
Qed.

Lemma extractFragments_whole_query_witness :
  extractFragments " ;Budget, " = [" ;Budget, "]
  /\ extractFragments " ;Budget, " <> [].
Proof.
  destruct (extractFragments_whole_query " ;Budget, ") as [H1 H2].
  - discriminate.
  - split; [apply H1; vm_compute; lia | exact H2].
Defined.

(* ================================================================== *)
(** ** The confidence score *)
(* ================================================================== *)

Lemma cons_head_length (c : ascii) (ps : list string) :
  0 < List.length (Js.cons_head c ps).
Proof. destruct ps; simpl; lia. Qed.

(** [split(/\s+/)] never returns an empty array: a query has at least one
    word (possibly the empty one). *)
Lemma split_ws_from_length (s : string) :
  forall inrun, 0 < List.length (Js.split_ws_from inrun s).
Proof.
  induction s as [|c s IH]; intros inrun; simpl; [lia|].
  destruct (Js.is_ws c).
  - destruct inrun; [apply IH | simpl; lia].
  - apply cons_head_length.
Qed.

(** What the [forEach] leaves in the two counters, from any start. *)
Lemma score_fold (ws : list string) (items : list ContextItem) :
  forall acc : nat * nat,
    fold_left (score_step ws) items acc
    = (fst acc
       + Spec.sum (map (fun it =>
           Spec.count_in (Js.toLowerCase (title it ++ " " ++ content it)) ws)
           items),
       snd acc + List.length ws * List.length items).
Proof.
  induction items as [|it items IH]; intros [m w]; simpl.
  - f_equal; lia.
  - rewrite IH. unfold score_step, Spec.count_in. simpl. f_equal; lia.
Qed.

(** The divisor of the score is never 0 when there is an item. *)
Lemma total_words_positive (q : string) (items : list ContextItem) :
  items <> [] ->
  0 < snd (fold_left (score_step (Js.split_ws (Js.toLowerCase q))) items (0, 0)).
Proof.
  intros H. rewrite score_fold. simpl.
  pose proof (split_ws_from_length (Js.toLowerCase q) false) as L.
  unfold Js.split_ws. destruct items; [congruence|]. simpl. nia.
Qed.

(** C3, as the code has it: the score is 0.3 for no item, and otherwise
    min(0.95, max(0.1, total_matches / total_words)) where the words are
    those of the LOWERCASED query split on white space, total_matches sums
    over the items the number of words occurring in the lowercased text
    "title, one space, content", and total_words is the number of words
    times the number of items. *)
Theorem calculateConfidenceScore_formula (q : string) (items : list ContextItem) :
  calculateConfidenceScore q items
  = match items with
    | [] => 0.3%Q
    | _ =>
        let ws := Js.split_ws (Js.toLowerCase q) in
        Spec.clamp
          (Spec.sum (map (fun it =>
             Spec.count_in (Js.toLowerCase (title it ++ " " ++ content it)) ws)
             items))
          (List.length ws * List.length items)
    end.
Proof.
  unfold calculateConfidenceScore.
  destruct items as [|it items]; [reflexivity|].
  change (List.length (it :: items) =? 0) with false. cbv zeta iota.
  rewrite score_fold. reflexivity.
Qed.

(** C3 as stated fails twice: the code lowercases the query before it
    splits it (so [Marketing] matches [marketing]), and it joins title and
    content with a space (so [bc] does not occur in [ab], [cd]). *)
Lemma calculateConfidenceScore_not_as_worded :
  ~ (calculateConfidenceScore "Marketing" [mkContextItem "marketing" "" None ""]
     == Spec.confidence_as_worded "Marketing" [mkContextItem "marketing" "" None ""])%Q
  /\ ~ (calculateConfidenceScore "bc" [mkContextItem "ab" "cd" None ""]
        == Spec.confidence_as_worded "bc" [mkContextItem "ab" "cd" None ""])%Q.
Proof. split; vm_compute; discriminate. Qed.

Lemma clamp_bounds (m w : nat) : (0.1 <= Spec.clamp m w <= 0.95)%Q.
Proof.
  unfold Spec.clamp. split.
  - apply Q.min_glb; [vm_compute; discriminate | apply Q.le_max_l].
  - apply Q.le_min_l.
Qed.

(** C4: the score is exactly 0.3 when there is no knowledge match, lies in
    [0.1, 0.95] when there is at least one, and is exactly 0.95 for the
    query "marketing presentation" and the single item titled
    "Q3 Marketing Deck" with content "presentation about marketing
    strategy". *)
Theorem calculateConfidenceScore_range (q : string) (items : list ContextItem) :
  (items = [] -> calculateConfidenceScore q items = 0.3%Q)
  /\ (items <> [] -> (0.1 <= calculateConfidenceScore q items <= 0.95)%Q)
  /\ (forall t c,
        calculateConfidenceScore "marketing presentation"
          [mkContextItem "Q3 Marketing Deck"
             "presentation about marketing strategy" t c] = 0.95%Q).
Proof.
  split; [|split].
  - intros ->. reflexivity.
  - intros H. rewrite calculateConfidenceScore_formula.
    destruct items; [congruence|]. apply clamp_bounds.
  - intros t c. reflexivity.
Qed.

Lemma calculateConfidenceScore_range_witness :
  (0.1 <= calculateConfidenceScore "deck budget" [Demo.deck; Demo.deck] <= 0.95)%Q.
Proof.
  apply (proj1 (proj2 (calculateConfidenceScore_range "deck budget"
                         [Demo.deck; Demo.deck]))).
  discriminate.
Defined.

(* ================================================================== *)
(** ** Runs of the handler *)
(* ================================================================== *)

Ltac unfold_ops :=
  unfold handler, search, try_catch, bind, ret, throw, ask, emit, req_json,
    console_log, console_error, insert_search_query, search_knowledge,
    fetch_gemini, response_json, insert_search_result in *.

Ltac reduce :=
  cbn -[build_prompt extractFragments calculateConfidenceScore context_of
        option_map firstn ai_response_of error_text String.append Z.sub] in *.

(** Case analysis on an innermost scrutinee of the goal. *)
Ltac branch :=
  match goal with
  | |- context [match ?x with _ => _ end] =>
      lazymatch x with
      | context [match _ with _ => _ end] => fail
      | _ => destruct x eqn:?
      end
  end.

Section HandlerRuns.

Variable env : Env.
Variable st : State.

Lemma not_options (req : Request) :
  method req <> "OPTIONS" -> String.eqb (method req) "OPTIONS" = false.
Proof. intros H. now apply String.eqb_neq. Qed.

(** The handler returns a response on every request: whatever is thrown
    inside [try] is turned into a response by [catch]. *)
Lemma handler_returns (req : Request) :
  exists resp st', handler req env st = (Returned resp, st').
Proof.
  unfold_ops. repeat (branch; reduce); eauto.
Qed.

(** The run in which every step before the result insert succeeds. *)
Lemma handler_answers (req : Request) (b : SearchBody)
    (new_id key : string) (r : FetchResponse) (d : GeminiData) :
  method req <> "OPTIONS" ->
  body req = Some b ->
  reply_insert_query env (query_insert_of env b) = inl new_id ->
  GEMINI_API_KEY env = Some key ->
  Js.nonempty key = true ->
  reply_fetch_gemini env key (build_prompt (query b) (context_for env b))
    = FetchResolved r ->
  fetch_ok r = true ->
  fetch_json r = Some d ->
  let row := result_row_of env b new_id d in
  let a := asked env st b new_id key in
  handler req env st
  = (Returned
       (mkResponse 200
          (SuccessBody (ai_response_of d) (context_for env b)
             (now_end env - now_start env) new_id)),
     match reply_insert_result env row with
     | None =>
         mkState (search_queries a) (search_results a ++ [stored_result row])
           (trace a ++ [DbInsertResult row])
     | Some e =>
         mkState (search_queries a) (search_results a)
           (trace a ++ [DbInsertResult row]
            ++ [ConsoleError "Error storing result:" (message e)])
     end).
Proof.
  intros Hm Hb Hq Hk Hne Hf Hok Hj row a.
  unfold_ops. rewrite (not_options req Hm), Hb. reduce.
  fold (query_insert_of env b). rewrite Hq. reduce.
  rewrite Hk, Hne. reduce.
  fold (context_for env b). rewrite Hf. reduce. rewrite Hok, Hj. reduce.
  fold (result_row_of env b new_id d). fold row.
  destruct (reply_insert_result env row); reduce; unfold a, asked; reduce;
    repeat rewrite <- app_assoc; reflexivity.
Qed.

(** A success response is only produced by that run. *)
Lemma handler_success_inv (req : Request) (resp : Response) (st' : State)
    (a : string) (km : list ContextItem) (t : Z) (qid : string) :
  handler req env st = (Returned resp, st') ->
  payload resp = SuccessBody a km t qid ->
  exists b key r d,
    method req <> "OPTIONS"
    /\ body req = Some b
    /\ reply_insert_query env (query_insert_of env b) = inl qid
    /\ GEMINI_API_KEY env = Some key
    /\ Js.nonempty key = true
    /\ reply_fetch_gemini env key (build_prompt (query b) (context_for env b))
       = FetchResolved r
    /\ fetch_ok r = true
    /\ fetch_json r = Some d.
Proof.
  unfold_ops. intros H P.
  destruct (String.eqb (method req) "OPTIONS") eqn:Em.
  { inversion H; subst. discriminate. }
  apply String.eqb_neq in Em.
  destruct (body req) as [b|] eqn:Eb; reduce.
  2:{ inversion H; subst. discriminate. }
  fold (query_insert_of env b) in H.
  destruct (reply_insert_query env (query_insert_of env b)) as [new_id|e] eqn:Eq;
    reduce.
  2:{ inversion H; subst. discriminate. }
  destruct (GEMINI_API_KEY env) as [key|] eqn:Ek; reduce.
  2:{ inversion H; subst. discriminate. }
  destruct (Js.nonempty key) eqn:En; reduce.
  2:{ inversion H; subst. discriminate. }
  fold (context_for env b) in H.
  destruct (reply_fetch_gemini env key
              (build_prompt (query b) (context_for env b))) as [e|r] eqn:Ef;
    reduce.
  { inversion H; subst. discriminate. }
  destruct (fetch_ok r) eqn:Eo; reduce.
  2:{ inversion H; subst. discriminate. }
  destruct (fetch_json r) as [d|] eqn:Ej; reduce.
  2:{ inversion H; subst. discriminate. }
  exists b, key, r, d.
  destruct (reply_insert_result env _); reduce; inversion H; subst;
    reduce; inversion P; subst; repeat split; auto.
Qed.

(** The client turns every error response into the same toast. *)
Lemma handleSearch_error (q uid msg : string) (n : nat) (st' : State) :
  Js.nonempty (Js.trim q) = true ->
  handler (mkRequest "POST" (Some (mkSearchBody q uid))) env st
  = (Returned (mkResponse n (ErrorBody msg)), st') ->
  handleSearch q (Some uid) env st = (Returned SearchError, st').
Proof.
  intros Hq Run. unfold handleSearch. rewrite Hq. cbn [negb].
  unfold bind. rewrite Run. reflexivity.
Qed.

(** C7: for every search request on which the model cannot be used (the
    credentials are missing, or the service answers outside 200..299), the
    handler answers with an error response (status 500 and an error
    message); no SearchResult row is created; the SearchQuery row written
    beforehand is still in the table, the message then being the one of the
    model failure; and the client shows the caller its one generic
    "Search Error". *)
Theorem model_unavailable_fails (req : Request) :
  method req <> "OPTIONS" ->
  model_unavailable env req ->
  exists msg st',
    handler req env st = (Returned (mkResponse 500 (ErrorBody msg)), st')
    /\ search_results st' = search_results st
    /\ (forall b new_id,
          body req = Some b ->
          reply_insert_query env (query_insert_of env b) = inl new_id ->
          search_queries st'
          = (search_queries st
             ++ [stored_query new_id (query_insert_of env b)])%list
          /\ (msg = "Gemini API key not configured"
              \/ exists r, fetch_ok r = false
                   /\ msg = "Gemini API error: "
                            ++ Js.number_to_string (fetch_status r)))
    /\ (forall q uid,
          req = mkRequest "POST" (Some (mkSearchBody q uid)) ->
          Js.nonempty (Js.trim q) = true ->
          handleSearch q (Some uid) env st = (Returned SearchError, st')).
Proof.
  intros Hm Hu.
  cut (exists msg st',
         handler req env st = (Returned (mkResponse 500 (ErrorBody msg)), st')
         /\ search_results st' = search_results st
         /\ (forall b new_id,
               body req = Some b ->
               reply_insert_query env (query_insert_of env b) = inl new_id ->
               search_queries st'
               = (search_queries st
                  ++ [stored_query new_id (query_insert_of env b)])%list
               /\ (msg = "Gemini API key not configured"
                   \/ exists r, fetch_ok r = false
                        /\ msg = "Gemini API error: "
                                 ++ Js.number_to_string (fetch_status r)))).
  { intros (msg & st' & Run & Hres & Hqs).
    exists msg, st'. repeat (split; [assumption|]).
    intros q uid -> Hq. now apply (handleSearch_error q uid msg 500 st'). }
  unfold_ops. rewrite (not_options req Hm).
  destruct (body req) as [b|] eqn:Eb; reduce.
  2:{ eexists; eexists. split; [reflexivity|]. split; [reflexivity|].
      intros b' i' Hb'. discriminate. }
  fold (query_insert_of env b).
  destruct (reply_insert_query env (query_insert_of env b)) as [new_id|e] eqn:Eq;
    reduce.
  2:{ eexists; eexists. split; [reflexivity|]. split; [reflexivity|].
      intros b' i' Hb' Hq'. inversion Hb'; subst. congruence. }
  assert (Hstored : forall b' i', Some b = Some b' ->
            reply_insert_query env (query_insert_of env b') = inl i' ->
            (search_queries st ++ [stored_query new_id (query_insert_of env b)]
             = search_queries st ++ [stored_query i' (query_insert_of env b')])%list).
  { intros b' i' Hb' Hq'. inversion Hb'; subst. congruence. }
  destruct (GEMINI_API_KEY env) as [key|] eqn:Ek; reduce.
  2:{ eexists; eexists. split; [reflexivity|]. split; [reflexivity|].
      intros b' i' Hb' Hq'. split; [now apply Hstored | now left]. }
  destruct (Js.nonempty key) eqn:En; reduce.
  2:{ eexists; eexists. split; [reflexivity|]. split; [reflexivity|].
      intros b' i' Hb' Hq'. split; [now apply Hstored | now left]. }
  destruct Hu as [Hu|Hu].
  { rewrite Ek in Hu. simpl in Hu. rewrite En in Hu. discriminate. }
  destruct (Hu b key Eb Ek) as [r [Hr Hok]].
  fold (context_for env b). rewrite Hr. reduce. rewrite Hok. reduce.
  eexists; eexists. split; [reflexivity|]. split; [reflexivity|].
  intros b' i' Hb' Hq'. split; [now apply Hstored|].
  right. exists r. split; [exact Hok | reflexivity].
Qed.

(** Whatever happens after it, the query insert is attempted on every
    search request whose body parses, and the row stays when the store
    accepts it. *)
Lemma handler_stores_query (req : Request) (b : SearchBody) :
  method req <> "OPTIONS" ->
  body req = Some b ->
  exists resp st',
    handler req env st = (Returned resp, st')
    /\ In (DbInsertQuery (query_insert_of env b)) (trace st')
    /\ forall new_id,
         reply_insert_query env (query_insert_of env b) = inl new_id ->
         search_queries st'
         = (search_queries st
            ++ [stored_query new_id (query_insert_of env b)])%list.
Proof.
  intros Hm Hb. unfold_ops. rewrite (not_options req Hm), Hb. reduce.
  fold (query_insert_of env b).
  destruct (reply_insert_query env (query_insert_of env b)) as [i|e] eqn:Eq;
    reduce;
    repeat (branch; reduce);
    (eexists; eexists; split; [reflexivity|]; split;
     [ reduce; repeat rewrite in_app_iff; simpl; intuition auto
     | intros i' Hi'; try discriminate; inversion Hi'; subst; reflexivity ]).
Qed.

End HandlerRuns.

Lemma model_unavailable_fails_witness :
  exists msg st',
    handler (Demo.post "blue folder") Demo.env_model_500 Demo.empty_state
    = (Returned (mkResponse 500 (ErrorBody msg)), st')
    /\ search_results st' = search_results Demo.empty_state
    /\ (forall b new_id,
          body (Demo.post "blue folder") = Some b ->
          reply_insert_query Demo.env_model_500
            (query_insert_of Demo.env_model_500 b) = inl new_id ->
          search_queries st'
          = (search_queries Demo.empty_state
             ++ [stored_query new_id (query_insert_of Demo.env_model_500 b)])%list
          /\ (msg = "Gemini API key not configured"
              \/ exists r, fetch_ok r = false
                   /\ msg = "Gemini API error: "
                            ++ Js.number_to_string (fetch_status r)))
    /\ (forall q uid,
          Demo.post "blue folder" = mkRequest "POST" (Some (mkSearchBody q uid)) ->
          Js.nonempty (Js.trim q) = true ->
          handleSearch q (Some uid) Demo.env_model_500 Demo.empty_state
          = (Returned SearchError, st')).
Proof.
  apply (model_unavailable_fails Demo.env_model_500 Demo.empty_state
           (Demo.post "blue folder")).
  - discriminate.
  - right. intros b key Hb Hk. inversion Hb; subst. inversion Hk; subst.
    eexists. split; reflexivity.
Defined.

(** The run of the 500 scenario, evaluated. *)
Example model_500_run :
  handler (Demo.post "blue folder") Demo.env_model_500 Demo.empty_state
  = (Returned (mkResponse 500 (ErrorBody "Gemini API error: 500")),
     mkState
       [mkQueryRow "q1" "u1" "blue folder" ["blue folder"]
          "2025-01-03T00:00:00.000Z"]
       []
       [ConsoleLog "Smart search request:";
        DbInsertQuery
          (mkQueryInsert "u1" "blue folder" ["blue folder"]
             "2025-01-03T00:00:00.000Z");
        DbSearchKnowledge "u1" "blue folder";
        FetchGemini "key" (build_prompt "blue folder" [Demo.deck]);
        ConsoleError "Gemini API error:" "boom";
        ConsoleError "Error in smart-search function:" "Gemini API error: 500"]).
Proof. reflexivity. Qed.

(** The store keeps a confidence of 0.3 as it is. *)
Lemma stored_result_third (row : ResultRow) :
  confidence_score row = 0.3%Q -> stored_result row = row.
Proof.
  destruct row as [i d c t]. simpl. intros ->. reflexivity.
Qed.

(** C8: for every valid request on which the knowledge search fails while
    the other steps succeed, the handler still answers with a success
    response; its knowledgeMatches is empty, the model was called with the
    prompt built from an empty context, and the SearchResult row it inserts
    has confidence 0.3 and no knowledge match (the row is stored when the
    store accepts it). *)
Theorem retrieval_failure_degrades (env : Env) (st : State) (req : Request)
    (b : SearchBody) (new_id key : string) (r : FetchResponse)
    (d : GeminiData) :
  method req <> "OPTIONS" ->
  body req = Some b ->
  reply_search_knowledge env (userId b) (query b) = None ->
  reply_insert_query env (query_insert_of env b) = inl new_id ->
  GEMINI_API_KEY env = Some key ->
  Js.nonempty key = true ->
  reply_fetch_gemini env key (build_prompt (query b) []) = FetchResolved r ->
  fetch_ok r = true ->
  fetch_json r = Some d ->
  exists st' row,
    handler req env st
    = (Returned
         (mkResponse 200
            (SuccessBody (ai_response_of d) [] (now_end env - now_start env)
               new_id)),
       st')
    /\ In (FetchGemini key (build_prompt (query b) [])) (trace st')
    /\ In (DbInsertResult row) (trace st')
    /\ confidence_score row = 0.3%Q
    /\ knowledge_matches (result_data row) = []
    /\ (reply_insert_result env row = None ->
        search_results st' = (search_results st ++ [row])%list).
Proof.
  intros Hm Hb Hs Hq Hk Hne Hf Hok Hj.
  assert (Hc : context_for env b = []).
  { unfold context_for. now rewrite Hs. }
  rewrite <- Hc in Hf.
  pose proof (handler_answers env st req b new_id key r d
                Hm Hb Hq Hk Hne Hf Hok Hj) as Run.
  cbv zeta in Run. rewrite Hc in Run.
  eexists. exists (result_row_of env b new_id d).
  split; [exact Run|].
  assert (Hrow : knowledge_matches (result_data (result_row_of env b new_id d)) = []).
  { simpl. exact Hc. }
  assert (Hconf : confidence_score (result_row_of env b new_id d) = 0.3%Q).
  { simpl. rewrite Hc. reflexivity. }
  unfold asked. rewrite Hc.
  destruct (reply_insert_result env (result_row_of env b new_id d)) eqn:Er;
    cbn [trace search_results search_queries];
    (split; [repeat rewrite in_app_iff; simpl; intuition auto|]);
    (split; [repeat rewrite in_app_iff; simpl; intuition auto|]);
    (split; [exact Hconf|]); (split; [exact Hrow|]);
    intros E; [discriminate | now rewrite (stored_result_third _ Hconf)].
Qed.

Lemma retrieval_failure_degrades_witness :
  exists st' row,
    handler (Demo.post "blue folder") Demo.env_no_retrieval Demo.empty_state
    = (Returned (mkResponse 200 (SuccessBody "Try the Q3 deck." [] 250 "q1")),
       st')
    /\ In (FetchGemini "key" (build_prompt "blue folder" [])) (trace st')
    /\ In (DbInsertResult row) (trace st')
    /\ confidence_score row = 0.3%Q
    /\ knowledge_matches (result_data row) = []
    /\ (reply_insert_result Demo.env_no_retrieval row = None ->
        search_results st' = [row]).
Proof.
  apply (retrieval_failure_degrades Demo.env_no_retrieval Demo.empty_state
           (Demo.post "blue folder") (mkSearchBody "blue folder" "u1")
           "q1" "key" (mkFetchResponse 200 "" (Some Demo.answer)) Demo.answer);
    try reflexivity.
  discriminate.
Defined.

(** C9: for every request on which the model has answered and the write of
    the SearchResult row then fails, the handler still returns the success
    response carrying the computed answer; the failure only reaches the
    console, and no SearchResult row is stored. *)
Theorem result_write_failure_only_logged (env : Env) (st : State)
    (req : Request) (b : SearchBody) (new_id key : string)
    (r : FetchResponse) (d : GeminiData) (e : JsError) :
  method req <> "OPTIONS" ->
  body req = Some b ->
  reply_insert_query env (query_insert_of env b) = inl new_id ->
  GEMINI_API_KEY env = Some key ->
  Js.nonempty key = true ->
  reply_fetch_gemini env key (build_prompt (query b) (context_for env b))
    = FetchResolved r ->
  fetch_ok r = true ->
  fetch_json r = Some d ->
  reply_insert_result env (result_row_of env b new_id d) = Some e ->
  exists st',
    handler req env st
    = (Returned
         (mkResponse 200
            (SuccessBody (ai_response_of d) (context_for env b)
               (now_end env - now_start env) new_id)),
       st')
    /\ search_results st' = search_results st
    /\ In (ConsoleError "Error storing result:" (message e)) (trace st')
    /\ forall label detail,
         In (ConsoleError label detail) (trace st') ->
         In (ConsoleError label detail) (trace st)
         \/ label = "Error storing result:".
Proof.
  intros Hm Hb Hq Hk Hne Hf Hok Hj He.
  pose proof (handler_answers env st req b new_id key r d
                Hm Hb Hq Hk Hne Hf Hok Hj) as Run.
  cbv zeta in Run. rewrite He in Run.
  eexists. split; [exact Run|].
  unfold asked. cbn [trace search_results search_queries].
  split; [reflexivity|]. split.
  - repeat rewrite in_app_iff. simpl. intuition auto.
  - intros label detail. repeat rewrite in_app_iff. simpl.
    intuition (try discriminate; auto).
    right. congruence.
Qed.

Lemma result_write_failure_only_logged_witness :
  exists st',
    handler (Demo.post "marketing deck") Demo.env_result_lost Demo.empty_state
    = (Returned
         (mkResponse 200
            (SuccessBody "Try the Q3 deck." [Demo.deck] 250 "q1")),
       st')
    /\ search_results st' = []
    /\ In (ConsoleError "Error storing result:" "row-level security") (trace st')
    /\ forall label detail,
         In (ConsoleError label detail) (trace st') ->
         In (ConsoleError label detail) [] \/ label = "Error storing result:".
Proof.
  apply (result_write_failure_only_logged Demo.env_result_lost Demo.empty_state
           (Demo.post "marketing deck") (mkSearchBody "marketing deck" "u1")
           "q1" "key" (mkFetchResponse 200 "" (Some Demo.answer)) Demo.answer
           (mkError "row-level security"));
    try reflexivity.
  discriminate.
Defined.

(** Rounding to the nearest integer moves a number by a half at most. *)
Lemma round_half_away_close (y : Q) :
  (Qabs (inject_Z (round_half_away y) - y) <= 1 # 2)%Q.
Proof.
  apply Qabs_Qle_condition. unfold round_half_away.
  destruct (Qle_bool 0 y).
  - pose proof (Qfloor_le (y + (1 # 2))) as Lo.
    pose proof (Qlt_floor (y + (1 # 2))) as Hi.
    rewrite inject_Z_plus in Hi. change (inject_Z 1) with 1%Q in Hi.
    set (n := inject_Z (Qfloor (y + (1 # 2)))) in *.
    split; lra.
  - pose proof (Qfloor_le (- y + (1 # 2))) as Lo.
    pose proof (Qlt_floor (- y + (1 # 2))) as Hi.
    rewrite inject_Z_plus in Hi. change (inject_Z 1) with 1%Q in Hi.
    rewrite inject_Z_opp.
    set (n := inject_Z (Qfloor (- y + (1 # 2)))) in *.
    split; lra.
Qed.

(** The column keeps a number to within half a hundredth. *)
Lemma numeric_3_2_close (x : Q) : (Qabs (numeric_3_2 x - x) <= 1 # 200)%Q.
Proof.
  unfold numeric_3_2. rewrite Qred_correct.
  pose proof (round_half_away_close (x * 100)) as H.
  apply Qabs_Qle_condition in H. apply Qabs_Qle_condition.
  assert (E : (round_half_away (x * 100) # 100
               == inject_Z (round_half_away (x * 100)) * (1 # 100))%Q).
  { unfold Qeq. simpl. lia. }
  rewrite E.
  set (n := inject_Z (round_half_away (x * 100))) in *.
  split; lra.
Qed.

(** C10, as the code and the schema have it: on every request answered with
    a success response, one SearchQuery row was added, its id is the
    response's queryId and its fragments are [extractFragments] of the
    query; the SearchResult row the handler inserts has the same fragments,
    the knowledgeMatches of the response, the confidence that
    [calculateConfidenceScore] gives for the query and that array, and the
    query row's id; and the row the store keeps for it, when it accepts the
    insert, has the same [result_data] and [query_id], and for confidence
    that score as the column [NUMERIC(3,2)] keeps it: rounded to two
    decimals, so within 0.005 of it. *)
Theorem stored_result_consistent (env : Env) (st : State) (req : Request)
    (resp : Response) (st' : State) (a : string) (km : list ContextItem)
    (t : Z) (qid : string) :
  handler req env st = (Returned resp, st') ->
  payload resp = SuccessBody a km t qid ->
  exists b qrow rrow,
    body req = Some b
    /\ search_queries st' = (search_queries st ++ [qrow])%list
    /\ id qrow = qid
    /\ query_text qrow = query b
    /\ query_fragments qrow = extractFragments (query b)
    /\ In (DbInsertResult rrow) (trace st')
    /\ fragments (result_data rrow) = query_fragments qrow
    /\ knowledge_matches (result_data rrow) = km
    /\ ai_response (result_data rrow) = a
    /\ confidence_score rrow = calculateConfidenceScore (query_text qrow) km
    /\ query_id rrow = id qrow
    /\ (search_results st'
        = (search_results st
           ++ match reply_insert_result env rrow with
              | None => [stored_result rrow]
              | Some _ => []
              end)%list)
    /\ result_data (stored_result rrow) = result_data rrow
    /\ query_id (stored_result rrow) = id qrow
    /\ confidence_score (stored_result rrow)
       = numeric_3_2 (calculateConfidenceScore (query_text qrow) km)
    /\ (Qabs (confidence_score (stored_result rrow)
              - calculateConfidenceScore (query_text qrow) km) <= 1 # 200)%Q.
Proof.
  intros Run P.
  destruct (handler_success_inv env st req resp st' a km t qid Run P)
    as (b & key & r & d & Hm & Hb & Hq & Hk & Hne & Hf & Hok & Hj).
  pose proof (handler_answers env st req b qid key r d
                Hm Hb Hq Hk Hne Hf Hok Hj) as Run'.
  cbv zeta in Run'. rewrite Run in Run'.
  inversion Run' as [[Hresp Hst]]. clear Run'.
  rewrite Hresp in P. simpl in P. inversion P; subst a km t. clear P.
  exists b, (stored_query qid (query_insert_of env b)),
    (result_row_of env b qid d).
  split; [exact Hb|].
  unfold asked.
  destruct (reply_insert_result env (result_row_of env b qid d)) eqn:Er;
    cbn [trace search_results search_queries];
    rewrite ?app_nil_r;
    repeat (split; [first [ reflexivity
                          | repeat rewrite in_app_iff; simpl; intuition auto ]|]);
    apply numeric_3_2_close.
Qed.

Lemma stored_result_consistent_witness :
  exists b qrow rrow,
    body (Demo.post "deck budget numbers") = Some b
    /\ search_queries
         (snd (handler (Demo.post "deck budget numbers") Demo.env_ok
                 Demo.empty_state))
       = (search_queries Demo.empty_state ++ [qrow])%list
    /\ id qrow = "q1"
    /\ query_text qrow = query b
    /\ query_fragments qrow = extractFragments (query b)
    /\ In (DbInsertResult rrow)
         (trace (snd (handler (Demo.post "deck budget numbers") Demo.env_ok
                        Demo.empty_state)))
    /\ fragments (result_data rrow) = query_fragments qrow
    /\ knowledge_matches (result_data rrow) = [Demo.deck]
    /\ ai_response (result_data rrow) = "Try the Q3 deck."
    /\ confidence_score rrow
       = calculateConfidenceScore (query_text qrow) [Demo.deck]
    /\ query_id rrow = id qrow
    /\ (search_results
          (snd (handler (Demo.post "deck budget numbers") Demo.env_ok
                  Demo.empty_state))
        = (search_results Demo.empty_state
           ++ match reply_insert_result Demo.env_ok rrow with
              | None => [stored_result rrow]
              | Some _ => []
              end)%list)
    /\ result_data (stored_result rrow) = result_data rrow
    /\ query_id (stored_result rrow) = id qrow
    /\ confidence_score (stored_result rrow)
       = numeric_3_2 (calculateConfidenceScore (query_text qrow) [Demo.deck])
    /\ (Qabs (confidence_score (stored_result rrow)
              - calculateConfidenceScore (query_text qrow) [Demo.deck])
        <= 1 # 200)%Q.
Proof.
  apply (stored_result_consistent Demo.env_ok Demo.empty_state
           (Demo.post "deck budget numbers")
           (mkResponse 200 (SuccessBody "Try the Q3 deck." [Demo.deck] 250 "q1"))
           (snd (handler (Demo.post "deck budget numbers") Demo.env_ok
                   Demo.empty_state))
           "Try the Q3 deck." [Demo.deck] 250%Z "q1");
    reflexivity.
Defined.

(** C10 as stated fails: for the query "deck budget numbers" and the one
    retrieved item, the request succeeds, the score is 1/3, and the
    confidence of the stored SearchResult row is 0.33. *)
Lemma stored_confidence_is_rounded :
  fst (handler (Demo.post "deck budget numbers") Demo.env_ok Demo.empty_state)
  = Returned (mkResponse 200 (SuccessBody "Try the Q3 deck." [Demo.deck] 250 "q1"))
  /\ calculateConfidenceScore "deck budget numbers" [Demo.deck] = (1 # 3)%Q
  /\ map confidence_score
       (search_results
          (snd (handler (Demo.post "deck budget numbers") Demo.env_ok
                  Demo.empty_state)))
     = [0.33%Q]
  /\ ~ (0.33 == calculateConfidenceScore "deck budget numbers" [Demo.deck])%Q.
Proof.
  split; [reflexivity|]. split; [reflexivity|]. split; [reflexivity|].
  vm_compute. discriminate.
Qed.

(* ================================================================== *)
(** ** The empty query *)
(* ================================================================== *)

Lemma handleSearch_blank (env : Env) (st : State) (q : string)
    (user : option string) :
  Js.trim q = "" ->
  handleSearch q user env st = (Returned SearchQueryRequired, st).
Proof. intros H. unfold handleSearch. now rewrite H. Qed.

(** C1, as the code has it: a query that is empty (or blank) is refused by
    the client, whose [handleSearch] ends with "Search Query Required"
    without sending a request, so that nothing is written; the handler
    itself validates nothing: on a request whose query is the empty string
    it attempts the SearchQuery insert, with the text "" and the fragments
    [""], and the row is in the table whenever the store accepts it. *)
Theorem empty_query_checked_by_client_only (env : Env) (st : State) :
  (forall q user,
      Js.trim q = "" ->
      handleSearch q user env st = (Returned SearchQueryRequired, st))
  /\ (forall req uid,
        method req <> "OPTIONS" ->
        body req = Some (mkSearchBody "" uid) ->
        exists resp st',
          handler req env st = (Returned resp, st')
          /\ In (DbInsertQuery (mkQueryInsert uid "" [""] (now_iso env)))
               (trace st')
          /\ forall new_id,
               reply_insert_query env (mkQueryInsert uid "" [""] (now_iso env))
               = inl new_id ->
               search_queries st'
               = (search_queries st
                  ++ [mkQueryRow new_id uid "" [""] (now_iso env)])%list).
Proof.
  split.
  - intros q user H. now apply handleSearch_blank.
  - intros req uid Hm Hb.
    exact (handler_stores_query env st req (mkSearchBody "" uid) Hm Hb).
Qed.

Lemma empty_query_checked_by_client_only_witness :
  handleSearch "" (Some "u1") Demo.env_ok Demo.empty_state
  = (Returned SearchQueryRequired, Demo.empty_state).
Proof.
  apply (proj1 (empty_query_checked_by_client_only Demo.env_ok Demo.empty_state)).
  reflexivity.
Defined.

(** C1 as stated fails: the handler answers the request with the empty
    query by a success response, and the SearchQuery row is written. *)
Lemma empty_query_is_stored :
  fst (handler (Demo.post "") Demo.env_ok Demo.empty_state)
  = Returned (mkResponse 200 (SuccessBody "Try the Q3 deck." [Demo.deck] 250 "q1"))
  /\ search_queries (snd (handler (Demo.post "") Demo.env_ok Demo.empty_state))
     = [mkQueryRow "q1" "u1" "" [""] "2025-01-03T00:00:00.000Z"].
Proof. split; reflexivity. Qed.

(* ================================================================== *)
(** ** Further properties of the handler *)
(* ================================================================== *)

(** Put a trace grown by the handler in the form [trace st ++ evs]. *)
Ltac flatten_trace := repeat rewrite <- app_assoc; cbn [app].

(** X1: The tables only grow, by at most one row each per request; a
    SearchResult row is stored only together with the SearchQuery row of the
    same request, whose id it carries. *)
Theorem handler_appends_rows (env : Env) (st : State) (req : Request) :
  exists resp st' qs rs,
    handler req env st = (Returned resp, st')
    /\ search_queries st' = (search_queries st ++ qs)%list
    /\ search_results st' = (search_results st ++ rs)%list
    /\ List.length qs <= 1
    /\ List.length rs <= 1
    /\ forall r, In r rs -> exists q, In q qs /\ query_id r = id q.
Proof.
  unfold_ops.
  repeat (branch; reduce);
    eexists; eexists;
    first
      [ exists [], []; split; [reflexivity|];
        cbn [search_queries search_results];
        split; [now rewrite app_nil_r|]; split; [now rewrite app_nil_r|];
        split; [simpl; lia|]; split; [simpl; lia|];
        intros ? []
      | eexists; exists []; split; [reflexivity|];
        cbn [search_queries search_results];
        split; [reflexivity|]; split; [now rewrite app_nil_r|];
        split; [simpl; lia|]; split; [simpl; lia|];
        intros ? []
      | eexists; eexists; split; [reflexivity|];
        cbn [search_queries search_results];
        split; [reflexivity|]; split; [reflexivity|];
        split; [simpl; lia|]; split; [simpl; lia|];
        intros ? [<-|[]]; eexists; split; [left; reflexivity | reflexivity] ].
Qed.

Ltac pick_prefix :=
  match goal with
  | |- _ = firstn ?n _ =>
      first [ unify n 0; reflexivity | unify n 1; reflexivity
            | unify n 2; reflexivity | unify n 3; reflexivity
            | unify n 4; reflexivity ]
  end.

(** X2: No retries and a fixed order: the calls of one request are an initial
    part of "insert the query, search the knowledge base, call the model,
    insert the result", each made at most once; nothing already in the trace
    is touched. *)
Theorem handler_calls_in_order (env : Env) (st : State) (req : Request) :
  exists resp st' evs n,
    handler req env st = (Returned resp, st')
    /\ trace st' = (trace st ++ evs)%list
    /\ calls evs = firstn n call_order.
Proof.
  unfold_ops.
  repeat (branch; reduce);
    eexists; eexists;
    first
      [ exists [], 0; split; [reflexivity|];
        split; [now rewrite app_nil_r | reflexivity]
      | eexists; eexists; split; [reflexivity|];
        cbn [trace];
        split; [flatten_trace; reflexivity|];
        pick_prefix ].
Qed.

(** X3: A request whose body does not parse is answered 500 before any
    collaborator is called: the tables are untouched and the only new event
    is the console line of the [catch] clause. *)
Theorem unparsable_body_rejected (env : Env) (st : State) (req : Request) :
  method req <> "OPTIONS" ->
  body req = None ->
  exists msg detail,
    handler req env st
    = (Returned (mkResponse 500 (ErrorBody msg)),
       mkState (search_queries st) (search_results st)
         (trace st ++ [ConsoleError "Error in smart-search function:" detail]))
    /\ msg <> "".
Proof.
  intros Hm Hb. unfold_ops. rewrite (not_options req Hm), Hb.
  eexists; eexists. split; [reflexivity | discriminate].
Qed.

Lemma unparsable_body_rejected_witness :
  exists msg detail,
    handler (mkRequest "POST" None) Demo.env_ok Demo.empty_state
    = (Returned (mkResponse 500 (ErrorBody msg)),
       mkState (search_queries Demo.empty_state)
         (search_results Demo.empty_state)
         (trace Demo.empty_state
          ++ [ConsoleError "Error in smart-search function:" detail]))
    /\ msg <> "".
Proof.
  apply (unparsable_body_rejected Demo.env_ok Demo.empty_state
           (mkRequest "POST" None)).
  - discriminate.
  - reflexivity.
Defined.

(** X4: When the store refuses the SearchQuery insert, the handler stops there:
    it answers 500 with the store's message (or the fixed text when that
    message is empty), writes no row, and makes no further call: neither
    the knowledge search nor the model is reached. *)
Theorem query_insert_failure_aborts (env : Env) (st : State) (req : Request)
    (b : SearchBody) (e : JsError) :
  method req <> "OPTIONS" ->
  body req = Some b ->
  reply_insert_query env (query_insert_of env b) = inr e ->
  handler req env st
  = (Returned (mkResponse 500 (ErrorBody (error_text e))),
     mkState (search_queries st) (search_results st)
       (trace st
        ++ [ConsoleLog "Smart search request:";
            DbInsertQuery (query_insert_of env b);
            ConsoleError "Error storing query:" (message e);
            ConsoleError "Error in smart-search function:" (message e)])).
Proof.
  intros Hm Hb Hq. unfold_ops. rewrite (not_options req Hm), Hb. reduce.
  fold (query_insert_of env b). rewrite Hq. reduce.
  flatten_trace. reflexivity.
Qed.

Lemma query_insert_failure_aborts_witness :
  handler (Demo.post "blue folder")
    (mkEnv (Some "key") 0 "t" 1 (fun _ => inr (mkError "permission denied"))
       (fun _ _ => None) (fun _ _ => FetchRejected (mkError "down"))
       (fun _ => None))
    Demo.empty_state
  = (Returned (mkResponse 500 (ErrorBody "permission denied")),
     mkState [] []
       [ConsoleLog "Smart search request:";
        DbInsertQuery (mkQueryInsert "u1" "blue folder" ["blue folder"] "t");
        ConsoleError "Error storing query:" "permission denied";
        ConsoleError "Error in smart-search function:" "permission denied"]).
Proof.
  apply (query_insert_failure_aborts
           (mkEnv (Some "key") 0 "t" 1 (fun _ => inr (mkError "permission denied"))
              (fun _ _ => None) (fun _ _ => FetchRejected (mkError "down"))
              (fun _ => None))
           Demo.empty_state (Demo.post "blue folder")
           (mkSearchBody "blue folder" "u1") (mkError "permission denied"));
    [discriminate | reflexivity | reflexivity].
Defined.

(** X5: The two other ways the model call can fail, a rejected [fetch] and an
    answer that is not JSON, end like a non-2xx answer: status 500, the
    query row kept, no result insert attempted. *)
Theorem model_call_failure_aborts (env : Env) (st : State) (req : Request)
    (b : SearchBody) (new_id key : string) :
  method req <> "OPTIONS" ->
  body req = Some b ->
  reply_insert_query env (query_insert_of env b) = inl new_id ->
  GEMINI_API_KEY env = Some key ->
  Js.nonempty key = true ->
  (exists e,
      reply_fetch_gemini env key (build_prompt (query b) (context_for env b))
      = FetchRejected e)
  \/ (exists r,
         reply_fetch_gemini env key (build_prompt (query b) (context_for env b))
         = FetchResolved r
         /\ fetch_ok r = true /\ fetch_json r = None) ->
  exists msg detail,
    handler req env st
    = (Returned (mkResponse 500 (ErrorBody msg)),
       mkState (search_queries (asked env st b new_id key))
         (search_results st)
         (trace (asked env st b new_id key)
          ++ [ConsoleError "Error in smart-search function:" detail])).
Proof.
  intros Hm Hb Hq Hk Hne Hf.
  unfold_ops. rewrite (not_options req Hm), Hb. reduce.
  fold (query_insert_of env b). rewrite Hq. reduce.
  rewrite Hk, Hne. reduce. fold (context_for env b).
  destruct Hf as [[e Hf] | [r [Hf [Hok Hj]]]]; rewrite Hf; reduce.
  - eexists; eexists. unfold asked. cbn [search_queries trace].
    flatten_trace. reflexivity.
  - rewrite Hok, Hj. reduce. eexists; eexists.
    unfold asked. cbn [search_queries trace]. flatten_trace. reflexivity.
Qed.

Lemma model_call_failure_aborts_witness :
  exists msg detail,
    handler (Demo.post "blue folder")
      (mkEnv (Some "key") 0 "t" 1 (fun _ => inl "q1") (fun _ _ => None)
         (fun _ _ => FetchRejected (mkError "connection refused"))
         (fun _ => None))
      Demo.empty_state
    = (Returned (mkResponse 500 (ErrorBody msg)),
       mkState
         (search_queries
            (asked
               (mkEnv (Some "key") 0 "t" 1 (fun _ => inl "q1") (fun _ _ => None)
                  (fun _ _ => FetchRejected (mkError "connection refused"))
                  (fun _ => None))
               Demo.empty_state (mkSearchBody "blue folder" "u1") "q1" "key"))
         (search_results Demo.empty_state)
         (trace
            (asked
               (mkEnv (Some "key") 0 "t" 1 (fun _ => inl "q1") (fun _ _ => None)
                  (fun _ _ => FetchRejected (mkError "connection refused"))
                  (fun _ => None))
               Demo.empty_state (mkSearchBody "blue folder" "u1") "q1" "key")
          ++ [ConsoleError "Error in smart-search function:" detail])).
Proof.
  apply (model_call_failure_aborts
           (mkEnv (Some "key") 0 "t" 1 (fun _ => inl "q1") (fun _ _ => None)
              (fun _ _ => FetchRejected (mkError "connection refused"))
              (fun _ => None))
           Demo.empty_state (Demo.post "blue folder")
           (mkSearchBody "blue folder" "u1") "q1" "key");
    try reflexivity.
  - discriminate.
  - left. eexists. reflexivity.
Defined.

Lemma error_text_nonempty (e : JsError) : error_text e <> "".
Proof.
  unfold error_text. destruct (message e) eqn:E; simpl; discriminate.
Qed.

Lemma ai_response_of_nonempty (d : GeminiData) : ai_response_of d <> "".
Proof.
  unfold ai_response_of. destruct (first_text d) as [[|c t]|]; simpl;
    discriminate.
Qed.

(** X6: The handler has three kinds of answers and no other: the empty 200 of
    the preflight, which leaves the state as it was; a 200 carrying an
    answer text that is never empty (the fixed "No response generated"
    stands in for a missing or empty one); and a 500 carrying an error text
    that is never empty. *)
Theorem handler_response_shape (env : Env) (st : State) (req : Request)
    (resp : Response) (st' : State) :
  handler req env st = (Returned resp, st') ->
  (method req = "OPTIONS" /\ resp = mkResponse 200 NullBody /\ st' = st)
  \/ (method req <> "OPTIONS"
      /\ exists a km t qid,
           resp = mkResponse 200 (SuccessBody a km t qid) /\ a <> "")
  \/ (method req <> "OPTIONS"
      /\ exists msg, resp = mkResponse 500 (ErrorBody msg) /\ msg <> "").
Proof.
  unfold_ops.
  destruct (String.eqb (method req) "OPTIONS") eqn:Em.
  - apply String.eqb_eq in Em. intros H. inversion H; subst. now left.
  - apply String.eqb_neq in Em. right. revert H.
    repeat (branch; reduce); intros H; inversion H; subst;
      first
        [ right; split; [exact Em|]; eexists; split; [reflexivity|];
          first [ apply error_text_nonempty | discriminate ]
        | left; split; [exact Em|]; eexists; eexists; eexists; eexists;
          split; [reflexivity | apply ai_response_of_nonempty] ].
Qed.

Lemma handler_response_shape_witness :
  (method (Demo.post "deck") = "OPTIONS"
   /\ mkResponse 200 (SuccessBody "Try the Q3 deck." [Demo.deck] 250 "q1")
      = mkResponse 200 NullBody
   /\ snd (handler (Demo.post "deck") Demo.env_ok Demo.empty_state)
      = Demo.empty_state)
  \/ (method (Demo.post "deck") <> "OPTIONS"
      /\ exists a km t qid,
           mkResponse 200 (SuccessBody "Try the Q3 deck." [Demo.deck] 250 "q1")
           = mkResponse 200 (SuccessBody a km t qid) /\ a <> "")
  \/ (method (Demo.post "deck") <> "OPTIONS"
      /\ exists msg,
           mkResponse 200 (SuccessBody "Try the Q3 deck." [Demo.deck] 250 "q1")
           = mkResponse 500 (ErrorBody msg) /\ msg <> "").
Proof.
  apply (handler_response_shape Demo.env_ok Demo.empty_state (Demo.post "deck")
           (mkResponse 200 (SuccessBody "Try the Q3 deck." [Demo.deck] 250 "q1"))
           (snd (handler (Demo.post "deck") Demo.env_ok Demo.empty_state))).
  reflexivity.
Defined.

(** X7: A success response carries the knowledge matches exactly as the
    knowledge search returned them: the projections to title, content, tags
    and creation date of all its rows, in their order, and none when the
    search returned no data.  The handler neither filters nor cuts the
    list; it holds at most five matches when the store honours the limit
    of 5 it is asked for. *)
Theorem knowledge_matches_as_returned (env : Env) (st : State) (req : Request)
    (resp : Response) (st' : State) (a : string) (km : list ContextItem)
    (t : Z) (qid : string) :
  handler req env st = (Returned resp, st') ->
  payload resp = SuccessBody a km t qid ->
  exists b,
    body req = Some b
    /\ km = match reply_search_knowledge env (userId b) (query b) with
            | Some rows => map project_row rows
            | None => []
            end
    /\ ((forall rows,
            reply_search_knowledge env (userId b) (query b) = Some rows ->
            List.length rows <= 5) ->
        List.length km <= 5).
Proof.
  intros Run P.
  destruct (handler_success_inv env st req resp st' a km t qid Run P)
    as (b & key & r & d & Hm & Hb & Hq & Hk & Hne & Hf & Hok & Hj).
  pose proof (handler_answers env st req b qid key r d
                Hm Hb Hq Hk Hne Hf Hok Hj) as Run'.
  cbv zeta in Run'. rewrite Run in Run'.
  apply (f_equal fst) in Run'. cbn [fst] in Run'.
  inversion Run' as [Hresp]. clear Run'.
  rewrite Hresp in P. simpl in P. inversion P; subst a km t. clear P.
  exists b. split; [exact Hb|]. unfold context_for.
  destruct (reply_search_knowledge env (userId b) (query b)) as [rows|];
    (split; [reflexivity|]); intros Hcap; simpl.
  - rewrite length_map. now apply Hcap.
  - lia.
Qed.

Lemma knowledge_matches_as_returned_witness :
  exists b,
    body (Demo.post "deck") = Some b
    /\ [Demo.deck]
       = match reply_search_knowledge Demo.env_ok (userId b) (query b) with
         | Some rows => map project_row rows
         | None => []
         end
    /\ ((forall rows,
            reply_search_knowledge Demo.env_ok (userId b) (query b) = Some rows ->
            List.length rows <= 5) ->
        List.length [Demo.deck] <= 5).
Proof.
  apply (knowledge_matches_as_returned Demo.env_ok Demo.empty_state
           (Demo.post "deck")
           (mkResponse 200 (SuccessBody "Try the Q3 deck." [Demo.deck] 250 "q1"))
           (snd (handler (Demo.post "deck") Demo.env_ok Demo.empty_state))
           "Try the Q3 deck." [Demo.deck] 250%Z "q1");
    reflexivity.
Defined.

(* ================================================================== *)
(** ** More facts about the string built-ins *)
(* ================================================================== *)

Module StringFacts.
Import Js.

Lemma lower_char_idem (c : ascii) : lower_char (lower_char c) = lower_char c.
Proof. destruct c as [[] [] [] [] [] [] [] []]; vm_compute; reflexivity. Qed.

Lemma toLowerCase_idem (s : string) :
  toLowerCase (toLowerCase s) = toLowerCase s.
Proof.
  induction s as [|c s IH]; simpl; [reflexivity|].
  now rewrite lower_char_idem, IH.
Qed.

Lemma toLowerCase_app (s t : string) :
  toLowerCase (s ++ t) = toLowerCase s ++ toLowerCase t.
Proof. induction s as [|c s IH]; simpl; [reflexivity | now rewrite IH]. Qed.

Lemma trimEnd_idem (s : string) : trimEnd (trimEnd s) = trimEnd s.
Proof.
  induction s as [|c s IH]; simpl; [reflexivity|].
  destruct (trimEnd s) as [|d u] eqn:E.
  - destruct (is_ws c) eqn:Ec; simpl; [reflexivity | now rewrite Ec].
  - change (trimEnd (String c (String d u))) with
      (match trimEnd (String d u) with
       | EmptyString => if is_ws c then EmptyString else String c EmptyString
       | t => String c t
       end).
    now rewrite IH.
Qed.

Lemma starts_clean_trimStart (s : string) : starts_clean (trimStart s) = true.
Proof.
  induction s as [|c s IH]; simpl; [reflexivity|].
  destruct (is_ws c) eqn:E; [exact IH | simpl; now rewrite E].
Qed.

Lemma trimStart_clean (s : string) :
  starts_clean s = true -> trimStart s = s.
Proof.
  destruct s as [|c s]; simpl; [reflexivity|].
  now destruct (is_ws c).
Qed.

Lemma starts_clean_trimEnd (s : string) :
  starts_clean s = true -> starts_clean (trimEnd s) = true.
Proof.
  destruct s as [|c s]; simpl; [reflexivity|].
  intros H. destruct (trimEnd s); [|exact H].
  destruct (is_ws c) eqn:E; [reflexivity | simpl; now rewrite E].
Qed.

Lemma trim_idem (s : string) : trim (trim s) = trim s.
Proof.
  unfold trim.
  rewrite (trimStart_clean (trimEnd (trimStart s))).
  - apply trimEnd_idem.
  - apply starts_clean_trimEnd, starts_clean_trimStart.
Qed.

Section FreeOf.

Variable p : ascii -> bool.

Lemma free_of_trimStart (s : string) :
  free_of p s = true -> free_of p (trimStart s) = true.
Proof.
  induction s as [|c s IH]; simpl; [reflexivity|].
  intros H. apply andb_true_iff in H as [Hc Hs].
  destruct (is_ws c); [now apply IH | simpl; now rewrite Hc, Hs].
Qed.

Lemma free_of_trimEnd (s : string) :
  free_of p s = true -> free_of p (trimEnd s) = true.
Proof.
  induction s as [|c s IH]; simpl; [reflexivity|].
  intros H. apply andb_true_iff in H as [Hc Hs].
  specialize (IH Hs).
  destruct (trimEnd s) as [|d u].
  - destruct (is_ws c); simpl; [reflexivity | now rewrite Hc].
  - simpl. rewrite Hc. exact IH.
Qed.

Lemma free_of_trim (s : string) :
  free_of p s = true -> free_of p (trim s) = true.
Proof. intros H. now apply free_of_trimEnd, free_of_trimStart. Qed.

End FreeOf.

Lemma no_separator_free_of (s : string) :
  Spec.no_separator s = free_of is_sep s.
Proof. induction s as [|c s IH]; simpl; [reflexivity | now rewrite IH]. Qed.

Lemma free_of_sep_lower (s : string) :
  free_of is_sep (toLowerCase s) = free_of is_sep s.
Proof.
  induction s as [|c s IH]; simpl; [reflexivity|].
  now rewrite JsFacts.is_sep_lower, IH.
Qed.

Lemma split_on_separators_pieces_free (s : string) :
  forall piece, In piece (Spec.split_on_separators s) ->
                free_of is_sep piece = true.
Proof.
  induction s as [|c s IH]; simpl.
  - intros piece [<-|[]]. reflexivity.
  - destruct (is_sep c) eqn:Ec.
    + intros piece [<-|H]; [reflexivity | now apply IH].
    + destruct (JsFacts.split_on_separators_cons s) as [p0 [ps E]].
      rewrite E in *. simpl. intros piece [<-|H].
      * simpl. rewrite Ec. simpl. apply IH. now left.
      * apply IH. now right.
Qed.

End StringFacts.

(* ================================================================== *)
(** ** More on fragment extraction *)
(* ================================================================== *)

(** X8: When fragment extraction returns two fragments or more, every one of
    them is in normal form: not empty, with no white space at either end,
    in lower case, and without a comma or a semicolon. *)
Theorem extractFragments_normal_form (q f : string) :
  2 <= List.length (extractFragments q) ->
  In f (extractFragments q) ->
  f <> ""
  /\ Js.trim f = f
  /\ Js.toLowerCase f = f
  /\ Spec.no_separator f = true.
Proof.
  rewrite extractFragments_cases.
  destruct (Nat.ltb_spec 1 (List.length (Spec.parts q))) as [G|G].
  2:{ simpl. lia. }
  intros _ Hin. unfold Spec.parts in Hin.
  apply filter_In in Hin as [Hin Hne].
  apply in_map_iff in Hin as [piece [<- Hpiece]].
  repeat split.
  - intros E. rewrite E in Hne. discriminate.
  - rewrite <- JsFacts.trim_lower, StringFacts.trim_idem. reflexivity.
  - apply StringFacts.toLowerCase_idem.
  - rewrite StringFacts.no_separator_free_of, StringFacts.free_of_sep_lower.
    apply StringFacts.free_of_trim.
    now apply StringFacts.split_on_separators_pieces_free with (s := q).
Qed.

Lemma extractFragments_normal_form_witness :
  "last week" <> ""
  /\ Js.trim "last week" = "last week"
  /\ Js.toLowerCase "last week" = "last week"
  /\ Spec.no_separator "last week" = true.
Proof.
  apply (extractFragments_normal_form "Blue Folder;  Last Week " "last week").
  - vm_compute. lia.
  - vm_compute. right. left. reflexivity.
Defined.

(** X9: No fragment is the empty string unless the query itself is empty. *)
Theorem extractFragments_no_empty_fragment (q f : string) :
  In f (extractFragments q) -> f = "" -> q = "".
Proof.
  rewrite extractFragments_cases.
  destruct (1 <? List.length (Spec.parts q)).
  - unfold Spec.parts. intros Hin E. subst f.
    apply filter_In in Hin as [_ Hne]. discriminate.
  - intros [<-|[]] E. exact E.
Qed.

Lemma extractFragments_no_empty_fragment_witness : "" = "".
Proof.
  apply (extractFragments_no_empty_fragment "" "").
  - vm_compute. left. reflexivity.
  - reflexivity.
Defined.

(* ================================================================== *)
(** ** More on the confidence score *)
(* ================================================================== *)

Lemma Qmax_left (x y : Q) : (y <= x)%Q -> Qmax x y = x.
Proof.
  intros H. unfold Qmax, GenericMinMax.gmax.
  destruct (x ?= y)%Q eqn:E; try reflexivity.
  apply Qlt_alt in E. exfalso. exact (Qlt_not_le _ _ E H).
Qed.

Lemma Qmax_right (x y : Q) : (x < y)%Q -> Qmax x y = y.
Proof.
  intros H. unfold Qmax, GenericMinMax.gmax.
  destruct (x ?= y)%Q eqn:E; try reflexivity; exfalso.
  - apply Qeq_alt in E. rewrite E in H. exact (Qlt_irrefl _ H).
  - apply Qgt_alt in E. exact (Qlt_not_le _ _ H (Qlt_le_weak _ _ E)).
Qed.

Lemma Qmin_left (x y : Q) : (x <= y)%Q -> Qmin x y = x.
Proof.
  intros H. unfold Qmin, GenericMinMax.gmin.
  destruct (x ?= y)%Q eqn:E; try reflexivity; exfalso.
  apply Qgt_alt in E. exact (Qlt_not_le _ _ E H).
Qed.

Lemma Qmin_right (x y : Q) : (y < x)%Q -> Qmin x y = y.
Proof.
  intros H. unfold Qmin, GenericMinMax.gmin.
  destruct (x ?= y)%Q eqn:E; try reflexivity; exfalso.
  - apply Qeq_alt in E. rewrite E in H. exact (Qlt_irrefl _ H).
  - apply Qlt_alt in E. exact (Qlt_not_le _ _ H (Qlt_le_weak _ _ E)).
Qed.

(** Every possible match found: the clamp is at its top. *)
Lemma clamp_full (n : nat) : 0 < n -> Spec.clamp n n = 0.95%Q.
Proof.
  intros H. unfold Spec.clamp.
  assert (E : (inject_Z (Z.of_nat n) / inject_Z (Z.of_nat n) == 1)%Q).
  { apply Qmult_inv_r. intros E0. unfold Qeq in E0. simpl in E0. lia. }
  rewrite Qmax_right.
  - apply Qmin_left. rewrite E. vm_compute. discriminate.
  - rewrite E. reflexivity.
Qed.

(** No match found: the clamp is at its bottom. *)
Lemma clamp_zero (w : nat) : Spec.clamp 0 w = 0.1%Q.
Proof.
  unfold Spec.clamp.
  assert (E : (inject_Z (Z.of_nat 0) / inject_Z (Z.of_nat w) == 0)%Q).
  { unfold Qdiv. apply Qmult_0_l. }
  rewrite Qmax_left.
  - apply Qmin_right. reflexivity.
  - rewrite E. vm_compute. discriminate.
Qed.

Lemma count_in_all (text : string) (ws : list string) :
  (forall w, In w ws -> Js.includes text w = true) ->
  Spec.count_in text ws = List.length ws.
Proof.
  unfold Spec.count_in. induction ws as [|w ws IH]; intros H; simpl.
  - reflexivity.
  - rewrite (H w (or_introl eq_refl)). simpl. f_equal.
    apply IH. intros w' Hw'. apply H. now right.
Qed.

Lemma count_in_none (text : string) (ws : list string) :
  (forall w, In w ws -> Js.includes text w = false) ->
  Spec.count_in text ws = 0.
Proof.
  unfold Spec.count_in. induction ws as [|w ws IH]; intros H; simpl.
  - reflexivity.
  - rewrite (H w (or_introl eq_refl)).
    apply IH. intros w' Hw'. apply H. now right.
Qed.

Lemma sum_map_const {A : Type} (f : A -> nat) (k : nat) (xs : list A) :
  (forall x, In x xs -> f x = k) ->
  Spec.sum (map f xs) = k * List.length xs.
Proof.
  induction xs as [|x xs IH]; intros H; simpl.
  - lia.
  - rewrite (H x (or_introl eq_refl)), IH; [lia|].
    intros y Hy. apply H. now right.
Qed.

Lemma split_ws_length (q : string) : 0 < List.length (Js.split_ws q).
Proof. apply split_ws_from_length. Qed.

(** X10: When every word of the query occurs in the text of every item, the
    score is 0.95, the top of its range. *)
Theorem score_when_all_words_match (q : string) (items : list ContextItem) :
  items <> [] ->
  (forall it w,
      In it items -> In w (Js.split_ws (Js.toLowerCase q)) ->
      Js.includes (item_text it) w = true) ->
  calculateConfidenceScore q items = 0.95%Q.
Proof.
  intros Hne H. rewrite calculateConfidenceScore_formula.
  destruct items as [|it0 items]; [congruence|]. cbv zeta.
  rewrite (sum_map_const _ (List.length (Js.split_ws (Js.toLowerCase q)))).
  - apply clamp_full.
    pose proof (split_ws_length (Js.toLowerCase q)). simpl. nia.
  - intros it Hit. apply count_in_all. intros w Hw. now apply H.
Qed.

Lemma score_when_all_words_match_witness :
  calculateConfidenceScore "Marketing DECK" [Demo.deck; Demo.deck] = 0.95%Q.
Proof.
  apply (score_when_all_words_match "Marketing DECK" [Demo.deck; Demo.deck]).
  - discriminate.
  - intros it w [<-|[<-|[]]] [<-|[<-|[]]]; reflexivity.
Defined.

(** X11: When no word of the query occurs in the text of any item, the score is
    0.1, the bottom of its range, however many items were retrieved. *)
Theorem score_when_no_word_matches (q : string) (items : list ContextItem) :
  items <> [] ->
  (forall it w,
      In it items -> In w (Js.split_ws (Js.toLowerCase q)) ->
      Js.includes (item_text it) w = false) ->
  calculateConfidenceScore q items = 0.1%Q.
Proof.
  intros Hne H. rewrite calculateConfidenceScore_formula.
  destruct items as [|it0 items]; [congruence|]. cbv zeta.
  rewrite (sum_map_const _ 0).
  - apply clamp_zero.
  - intros it Hit. apply count_in_none. intros w Hw. now apply H.
Qed.

Lemma score_when_no_word_matches_witness :
  calculateConfidenceScore "budget numbers" [Demo.deck] = 0.1%Q.
Proof.
  apply (score_when_no_word_matches "budget numbers" [Demo.deck]).
  - discriminate.
  - intros it w [<-|[]] [<-|[<-|[]]]; reflexivity.
Defined.

Lemma trimEnd_empty_all_ws (s : string) : Js.trimEnd s = "" -> all_ws s = true.
Proof.
  induction s as [|c s IH]; simpl; [reflexivity|].
  destruct (Js.trimEnd s); [|discriminate].
  destruct (Js.is_ws c); [intros _; now apply IH | discriminate].
Qed.

Lemma all_ws_trimStart (s : string) :
  all_ws (Js.trimStart s) = true -> all_ws s = true.
Proof.
  induction s as [|c s IH]; simpl; [reflexivity|].
  destruct (Js.is_ws c) eqn:E; simpl; [exact IH|].
  rewrite E. discriminate.
Qed.

(** A string that trims to nothing is made of white space only. *)
Lemma trim_empty_all_ws (s : string) : Js.trim s = "" -> all_ws s = true.
Proof.
  unfold Js.trim. intros H.
  now apply all_ws_trimStart, trimEnd_empty_all_ws.
Qed.

Lemma all_ws_lower (s : string) : all_ws (Js.toLowerCase s) = all_ws s.
Proof.
  induction s as [|c s IH]; simpl; [reflexivity|].
  now rewrite JsFacts.is_ws_lower, IH.
Qed.

(** The words of a string of white space are all empty. *)
Lemma split_ws_all_ws (s : string) :
  all_ws s = true ->
  forall inrun w, In w (Js.split_ws_from inrun s) -> w = "".
Proof.
  induction s as [|c s IH]; simpl.
  - intros _ inrun w [<-|[]]. reflexivity.
  - intros H. apply andb_true_iff in H as [Hc Hs]. rewrite Hc.
    intros [|] w Hw.
    + now apply (IH Hs true).
    + destruct Hw as [<-|Hw]; [reflexivity | now apply (IH Hs true)].
Qed.

Lemma includes_empty (s : string) : Js.includes s "" = true.
Proof. destruct s; reflexivity. Qed.

(** X12: A blank query scores 0.95 against any retrieved items: its words are
    empty strings, and the empty string occurs in every text.  (The handler
    does not refuse such a query.) *)
Theorem score_of_blank_query (q : string) (items : list ContextItem) :
  Js.trim q = "" ->
  items <> [] ->
  calculateConfidenceScore q items = 0.95%Q.
Proof.
  intros Hq Hne. rewrite calculateConfidenceScore_formula.
  destruct items as [|it0 items]; [congruence|]. cbv zeta.
  assert (Hw : forall w, In w (Js.split_ws (Js.toLowerCase q)) -> w = "").
  { apply split_ws_all_ws. rewrite all_ws_lower. now apply trim_empty_all_ws. }
  rewrite (sum_map_const _ (List.length (Js.split_ws (Js.toLowerCase q)))).
  - apply clamp_full.
    pose proof (split_ws_length (Js.toLowerCase q)). simpl. nia.
  - intros it Hit. apply count_in_all. intros w Hin.
    rewrite (Hw w Hin). apply includes_empty.
Qed.

Lemma score_of_blank_query_witness :
  calculateConfidenceScore "   " [Demo.deck] = 0.95%Q.
Proof.
  apply (score_of_blank_query "   " [Demo.deck]).
  - reflexivity.
  - discriminate.
Defined.

Lemma item_text_lower (a b : ContextItem) :
  Js.toLowerCase (title a) = Js.toLowerCase (title b) ->
  Js.toLowerCase (content a) = Js.toLowerCase (content b) ->
  item_text a = item_text b.
Proof.
  intros Ht Hc. unfold item_text.
  rewrite !StringFacts.toLowerCase_app. now rewrite Ht, Hc.
Qed.

(** X13: The score ignores case, tags and dates: two queries with the same
    lowercase form, against two sequences of items that agree position by
    position on their lowercased titles and contents, score the same. *)
Theorem score_ignores_case (q q' : string) (items items' : list ContextItem) :
  Js.toLowerCase q = Js.toLowerCase q' ->
  Forall2 (fun a b =>
             Js.toLowerCase (title a) = Js.toLowerCase (title b)
             /\ Js.toLowerCase (content a) = Js.toLowerCase (content b))
    items items' ->
  calculateConfidenceScore q items = calculateConfidenceScore q' items'.
Proof.
  intros Hq H. rewrite !calculateConfidenceScore_formula. rewrite <- Hq.
  assert (Hs : forall ws,
             Spec.sum (map (fun it => Spec.count_in (item_text it) ws) items)
             = Spec.sum (map (fun it => Spec.count_in (item_text it) ws) items')).
  { intros ws. induction H as [|a b l l' [Ht Hc] _ IH]; simpl; [reflexivity|].
    now rewrite (item_text_lower a b Ht Hc), IH. }
  pose proof (Forall2_length H) as Hl.
  destruct H as [|a b l l' _ _]; [reflexivity|].
  cbv zeta. unfold item_text in Hs. rewrite Hs, Hl. reflexivity.
Qed.

Lemma score_ignores_case_witness :
  calculateConfidenceScore "MARKETING Deck" [Demo.deck]
  = calculateConfidenceScore "marketing deck"
      [mkContextItem "q3 marketing DECK" "Presentation About Marketing Strategy"
         None ""].
Proof.
  apply (score_ignores_case "MARKETING Deck" "marketing deck" [Demo.deck]
           [mkContextItem "q3 marketing DECK"
              "Presentation About Marketing Strategy" None ""]).
  - reflexivity.
  - constructor; [split; reflexivity | constructor].
Defined.

(** X14: The order of the retrieved items does not matter to the score. *)
Theorem score_ignores_order (q : string) (items items' : list ContextItem) :
  Permutation.Permutation items items' ->
  calculateConfidenceScore q items = calculateConfidenceScore q items'.
Proof.
  intros H. rewrite !calculateConfidenceScore_formula.
  assert (Hs : forall f : ContextItem -> nat,
             Spec.sum (map f items) = Spec.sum (map f items')).
  { intros f. induction H; simpl; lia. }
  pose proof (Permutation.Permutation_length H) as Hl.
  destruct items as [|a l]; destruct items' as [|b l']; try discriminate;
    [reflexivity|].
  cbv zeta. rewrite Hs, Hl. reflexivity.
Qed.

Lemma score_ignores_order_witness :
  calculateConfidenceScore "deck budget"
    [Demo.deck; mkContextItem "Budget" "numbers" None ""]
  = calculateConfidenceScore "deck budget"
      [mkContextItem "Budget" "numbers" None ""; Demo.deck].
Proof.
  apply (score_ignores_order "deck budget"
           [Demo.deck; mkContextItem "Budget" "numbers" None ""]
           [mkContextItem "Budget" "numbers" None ""; Demo.deck]).
  apply Permutation.perm_swap.
Defined.

(* ================================================================== *)
(** ** The client: toasts and history of the search interface *)
(* ================================================================== *)

(** A request that is not a preflight is answered 200 with a success body or
    500 with an error body. *)
Lemma search_response_cases (env : Env) (st : State) (req : Request)
    (resp : Response) (st' : State) :
  method req <> "OPTIONS" ->
  handler req env st = (Returned resp, st') ->
  (exists a km t qid, resp = mkResponse 200 (SuccessBody a km t qid))
  \/ (exists msg, resp = mkResponse 500 (ErrorBody msg)).
Proof.
  intros Hm. unfold_ops. rewrite (not_options req Hm).
  repeat (branch; reduce); intros H; inversion H; subst;
    first [ right; eexists; reflexivity
          | left; eexists; eexists; eexists; eexists; reflexivity ].
Qed.

(** On the path where [getUser] resolves and the request and its answer
    get through, [handleSearch_via] is [handleSearch]. *)
Lemma handleSearch_via_up (q : string) (user : option string) :
  handleSearch_via q (GetUserResolved user) LinkUp = handleSearch q user.
Proof. unfold handleSearch_via, handleSearch. now destruct user. Qed.

(** X15: The four endings of [handleSearch], which never throws.  "Search
    Query Required" and "Authentication Required" mean that nothing was sent
    and nothing changed; "Search Complete" means that the handler answered
    200, that the SearchQuery row of this query and user is stored, and that
    the time shown is the handler's processing time; "Search Error" means
    that [getUser] rejected, or that the request did not get through, or
    that the handler ran and its answer was lost or was a 500. *)
Theorem handleSearch_toasts (env : Env) (st : State) (q : string)
    (auth : GetUser) (link : Link) :
  exists toast st',
    handleSearch_via q auth link env st = (Returned toast, st')
    /\ match toast with
       | SearchQueryRequired => Js.trim q = "" /\ st' = st
       | AuthenticationRequired =>
           Js.trim q <> "" /\ auth = GetUserResolved None /\ st' = st
       | SearchComplete t =>
           exists uid qid,
             auth = GetUserResolved (Some uid)
             /\ link = LinkUp
             /\ t = (now_end env - now_start env)%Z
             /\ search_queries st'
                = (search_queries st
                   ++ [mkQueryRow qid uid q (extractFragments q) (now_iso env)])%list
       | SearchError =>
           Js.trim q <> ""
           /\ ((exists e, auth = GetUserRejected e /\ st' = st)
               \/ exists uid,
                    auth = GetUserResolved (Some uid)
                    /\ ((link = LinkDown /\ st' = st)
                        \/ (link = LinkLosesAnswer
                            /\ exists resp,
                                 handler
                                   (mkRequest "POST" (Some (mkSearchBody q uid)))
                                   env st
                                 = (Returned resp, st'))
                        \/ (link = LinkUp
                            /\ exists msg,
                                 handler
                                   (mkRequest "POST" (Some (mkSearchBody q uid)))
                                   env st
                                 = (Returned (mkResponse 500 (ErrorBody msg)),
                                    st'))))
       end.
Proof.
  unfold handleSearch_via.
  destruct (Js.trim q) as [|c0 q0] eqn:Et; cbn [Js.nonempty negb].
  { exists SearchQueryRequired, st. now split. }
  assert (Hq : String c0 q0 <> "") by discriminate.
  destruct auth as [e|[uid|]].
  { exists SearchError, st. split; [reflexivity|].
    split; [exact Hq|]. left. now exists e. }
  2:{ exists AuthenticationRequired, st. split; [reflexivity|]. now repeat split. }
  set (req := mkRequest "POST" (Some (mkSearchBody q uid))).
  assert (Hm : method req <> "OPTIONS") by discriminate.
  destruct (handler_returns env st req) as [resp [st' Run]].
  destruct link.
  - exists SearchError, st. split; [reflexivity|].
    split; [exact Hq|]. right. exists uid. split; [reflexivity|]. now left.
  - exists SearchError, st'. unfold bind, ret. rewrite Run.
    split; [reflexivity|]. split; [exact Hq|].
    right. exists uid. split; [reflexivity|].
    right. left. split; [reflexivity|]. now exists resp.
  - unfold bind. rewrite Run.
    destruct (search_response_cases env st req resp st' Hm Run)
      as [(a & km & t & qid & ->) | (msg & ->)].
    + exists (SearchComplete t), st'. split; [reflexivity|].
      destruct (handler_success_inv env st req _ st' a km t qid Run eq_refl)
        as (b & key & r & d & _ & Hb & Hqi & Hk & Hne & Hf & Hok & Hj).
      pose proof (handler_answers env st req b qid key r d
                    Hm Hb Hqi Hk Hne Hf Hok Hj) as Run'.
      cbv zeta in Run'. rewrite Run in Run'.
      inversion Run' as [[Ha Hkm Ht Hst]].
      inversion Hb; subst b.
      exists uid, qid. repeat (split; [reflexivity|]).
      destruct (reply_insert_result env _); reflexivity.
    + exists SearchError, st'. split; [reflexivity|]. split; [exact Hq|].
      right. exists uid. split; [reflexivity|].
      right. right. split; [reflexivity|]. now exists msg.
Qed.

Lemma history_from (qs : list string) :
  forall h,
    fold_left (fun prev q => Ui.push_history q prev) qs (firstn 5 h)
    = firstn 5 (rev qs ++ h).
Proof.
  induction qs as [|q qs IH]; intros h; [reflexivity|].
  cbn [fold_left]. unfold Ui.push_history at 2.
  rewrite firstn_firstn. change (Nat.min 4 5) with 4.
  change (q :: firstn 4 h) with (firstn 5 (q :: h)).
  rewrite IH. cbn [rev]. now rewrite <- app_assoc.
Qed.

(** X16: The search history holds the last five successful queries, the most
    recent first. *)
Theorem history_is_last_five (qs : list string) :
  Ui.history_after qs = firstn 5 (rev qs)
  /\ List.length (Ui.history_after qs) <= 5.
Proof.
  assert (E : Ui.history_after qs = firstn 5 (rev qs)).
  { unfold Ui.history_after. change (@nil string) with (firstn 5 (@nil string)).
    rewrite history_from. now rewrite app_nil_r. }
  split; [exact E|]. rewrite E. apply firstn_le_length.
Qed.

(* ================================================================== *)
(** ** The client: tags and the knowledge form *)
(* ================================================================== *)

Module TagFacts.
Import Js.

Lemma split_comma_cons (s : string) :
  exists p ps, Ui.split_comma s = p :: ps.
Proof.
  induction s as [|c s [p [ps IH]]]; simpl; [now eexists; eexists|].
  destruct (Ascii.eqb c ","); [now eexists; eexists|].
  rewrite IH. simpl. now eexists; eexists.
Qed.

Lemma split_comma_pieces_free (s : string) :
  forall piece, In piece (Ui.split_comma s) -> free_of (fun c => Ascii.eqb c ",") piece = true.
Proof.
  induction s as [|c s IH]; simpl.
  - intros piece [<-|[]]. reflexivity.
  - destruct (Ascii.eqb c ",") eqn:Ec.
    + intros piece [<-|H]; [reflexivity | now apply IH].
    + destruct (split_comma_cons s) as [p0 [ps E]].
      rewrite E in *. simpl. intros piece [<-|H].
      * simpl. rewrite Ec. simpl. apply IH. now left.
      * apply IH. now right.
Qed.

Lemma split_comma_free (t : string) :
  free_of (fun c => Ascii.eqb c ",") t = true -> Ui.split_comma t = [t].
Proof.
  induction t as [|c t IH]; simpl; [reflexivity|].
  intros H. apply andb_true_iff in H as [Hc Ht].
  apply negb_true_iff in Hc. rewrite Hc, (IH Ht). reflexivity.
Qed.

Lemma split_comma_app (t rest : string) :
  free_of (fun c => Ascii.eqb c ",") t = true ->
  Ui.split_comma (t ++ String "," rest) = t :: Ui.split_comma rest.
Proof.
  induction t as [|c t IH]; simpl; [reflexivity|].
  intros H. apply andb_true_iff in H as [Hc Ht].
  apply negb_true_iff in Hc. rewrite Hc, (IH Ht). reflexivity.
Qed.

Lemma ws_not_comma (c : ascii) : is_ws c = true -> Ascii.eqb c "," = false.
Proof.
  intros H. destruct (Ascii.eqb c ",") eqn:E; [|reflexivity].
  apply Ascii.eqb_eq in E. subst c. discriminate.
Qed.

Lemma trim_skip (c : ascii) (s : string) :
  is_ws c = true -> trim (String c s) = trim s.
Proof. intros H. unfold trim. simpl. now rewrite H. Qed.

(** White space in front of the text does not change the tags. *)
Lemma parse_tags_skip (c : ascii) (s : string) :
  is_ws c = true -> Ui.parse_tags (String c s) = Ui.parse_tags s.
Proof.
  intros H. unfold Ui.parse_tags. simpl. rewrite (ws_not_comma c H).
  destruct (split_comma_cons s) as [p [ps E]]. rewrite E. simpl.
  now rewrite (trim_skip c p H).
Qed.

Lemma tag_ok_parts (t : string) :
  Ui.tag_ok t = true ->
  nonempty t = true /\ trim t = t /\ free_of (fun c => Ascii.eqb c ",") t = true.
Proof.
  unfold Ui.tag_ok. intros H.
  apply andb_true_iff in H as [H Hf]. apply andb_true_iff in H as [Hn Ht].
  apply String.eqb_eq in Ht. now repeat split.
Qed.

(** Every tag read from the text is in normal form. *)
Lemma parse_tags_ok (s t : string) :
  In t (Ui.parse_tags s) -> Ui.tag_ok t = true.
Proof.
  unfold Ui.parse_tags. intros H.
  apply filter_In in H as [H Hn].
  apply in_map_iff in H as [piece [<- Hp]].
  unfold Ui.tag_ok. rewrite Hn, StringFacts.trim_idem, String.eqb_refl.
  simpl. apply StringFacts.free_of_trim.
  now apply split_comma_pieces_free with (s := s).
Qed.

(** Reading back the text [handleEdit] writes for tags in normal form gives
    the same tags. *)
Lemma parse_tags_join (ts : list string) :
  forallb Ui.tag_ok ts = true -> Ui.parse_tags (join ", " ts) = ts.
Proof.
  induction ts as [|t ts IH]; [reflexivity|].
  intros H. cbn [forallb] in H. apply andb_true_iff in H as [Ht Hts].
  destruct (tag_ok_parts t Ht) as (Hn & Htrim & Hfree).
  destruct ts as [|t2 ts].
  - unfold join. cbn [String.concat]. unfold Ui.parse_tags.
    rewrite (split_comma_free t Hfree). simpl. now rewrite Htrim, Hn.
  - specialize (IH Hts).
    change (join ", " (t :: t2 :: ts))
      with (t ++ String "," (String " " (join ", " (t2 :: ts)))).
    unfold Ui.parse_tags. rewrite (split_comma_app t _ Hfree).
    cbn [map filter]. rewrite Htrim, Hn. f_equal.
    rewrite <- (parse_tags_skip " " (join ", " (t2 :: ts)) eq_refl) in IH.
    exact IH.
Qed.

Lemma parse_tags_all_ok (s : string) :
  forallb Ui.tag_ok (Ui.parse_tags s) = true.
Proof.
  apply forallb_forall. intros t Ht. now apply parse_tags_ok with (s := s).
Qed.

End TagFacts.

(** X17: The tags [handleSubmit] reads from the form are in normal form (each one
    non-empty, trimmed, without a comma), and a round trip through the text
    [handleEdit] shows for them gives the same tags. *)
Theorem parse_tags_normal_form (s : string) :
  forallb Ui.tag_ok (Ui.parse_tags s) = true
  /\ Ui.parse_tags (Js.join ", " (Ui.parse_tags s)) = Ui.parse_tags s.
Proof.
  pose proof (TagFacts.parse_tags_all_ok s) as H.
  split; [exact H | now apply TagFacts.parse_tags_join].
Qed.

(** X18: Editing an item and saving the form as [handleEdit] filled it sends an
    update of that very item with its title, content, type and tags
    unchanged, provided its title and content are not blank and its tags
    are in normal form; on acceptance the form is reset and the dialog
    closed. *)
Theorem edit_then_save_keeps_item (item : Ui.KnowledgeItem) (m : Ui.Manager)
    (uid : string) (reply : Ui.KbRequest -> option JsError) :
  Js.trim (Ui.item_title item) <> "" ->
  Js.trim (Ui.item_content item) <> "" ->
  forallb Ui.tag_ok (Ui.item_tags item) = true ->
  reply (Ui.KbUpdate (Ui.item_id item)
           (Ui.mkItemData (Ui.item_title item) (Ui.item_content item)
              (Ui.item_content_type item) (Ui.item_tags item) uid)) = None ->
  Ui.handleSubmit (Ui.handleEdit item m) (Some uid) reply
  = (Ui.mkManager Ui.blank_form None false, Ui.ItemUpdated,
     Some (Ui.KbUpdate (Ui.item_id item)
             (Ui.mkItemData (Ui.item_title item) (Ui.item_content item)
                (Ui.item_content_type item) (Ui.item_tags item) uid))).
Proof.
  intros Ht Hc Htags Hr. unfold Ui.handleSubmit, Ui.handleEdit.
  cbn [Ui.formData Ui.form_title Ui.form_content Ui.form_content_type
       Ui.form_tags Ui.editingItem].
  destruct (Js.trim (Ui.item_title item)) eqn:E1; [congruence|].
  destruct (Js.trim (Ui.item_content item)) eqn:E2; [congruence|].
  cbn [Js.nonempty negb orb].
  rewrite (TagFacts.parse_tags_join _ Htags). cbv zeta.
  now rewrite Hr.
Qed.

Lemma edit_then_save_keeps_item_witness :
  Ui.handleSubmit
    (Ui.handleEdit
       (Ui.mkItem "k1" "Q3 Deck" "slides" "document" ["work"; "q3 plan"] "" "")
       (Ui.mkManager Ui.blank_form None false))
    (Some "u1") (fun _ => None)
  = (Ui.mkManager Ui.blank_form None false, Ui.ItemUpdated,
     Some (Ui.KbUpdate "k1"
             (Ui.mkItemData "Q3 Deck" "slides" "document" ["work"; "q3 plan"]
                "u1"))).
Proof.
  apply (edit_then_save_keeps_item
           (Ui.mkItem "k1" "Q3 Deck" "slides" "document" ["work"; "q3 plan"] "" "")
           (Ui.mkManager Ui.blank_form None false) "u1" (fun _ => None));
    [discriminate | discriminate | reflexivity | reflexivity].
Defined.

(** X19: Whatever the form holds, a write reaches the store only from a signed-in
    user and only with a title and a content that are not blank and tags in
    normal form; it is an update of the item being edited, or an insert
    when none is. *)
Theorem handleSubmit_sends_valid_items (m m' : Ui.Manager)
    (user : option string) (reply : Ui.KbRequest -> option JsError)
    (toast : Ui.SubmitToast) (r : Ui.KbRequest) :
  Ui.handleSubmit m user reply = (m', toast, Some r) ->
  exists d,
    user = Some (Ui.data_user_id d)
    /\ r = match Ui.editingItem m with
           | Some it => Ui.KbUpdate (Ui.item_id it) d
           | None => Ui.KbInsert d
           end
    /\ Ui.data_title d = Ui.form_title (Ui.formData m)
    /\ Ui.data_content d = Ui.form_content (Ui.formData m)
    /\ Js.trim (Ui.data_title d) <> ""
    /\ Js.trim (Ui.data_content d) <> ""
    /\ forallb Ui.tag_ok (Ui.data_tags d) = true.
Proof.
  unfold Ui.handleSubmit.
  destruct (Js.trim (Ui.form_title (Ui.formData m))) eqn:E1;
    cbn [Js.nonempty negb orb]; [discriminate|].
  destruct (Js.trim (Ui.form_content (Ui.formData m))) eqn:E2;
    cbn [Js.nonempty negb orb]; [discriminate|].
  destruct user as [uid|]; [|discriminate].
  cbv zeta.
  destruct (reply _); intros H; inversion H; subst; clear H;
    (eexists (Ui.mkItemData _ _ _ _ _);
     split; [reflexivity|]; split; [reflexivity|];
     cbn [Ui.data_title Ui.data_content Ui.data_tags];
     split; [reflexivity|]; split; [reflexivity|];
     split; [rewrite E1; discriminate|];
     split; [rewrite E2; discriminate|];
     apply TagFacts.parse_tags_all_ok).
Qed.

Lemma handleSubmit_sends_valid_items_witness :
  exists d,
    Some "u1" = Some (Ui.data_user_id d)
    /\ Ui.KbInsert (Ui.mkItemData "Deck" "slides" "document" ["a"; "b c"] "u1")
       = match Ui.editingItem
                 (Ui.mkManager (Ui.mkForm "Deck" "slides" "document" " a, ,b c,")
                    None true) with
         | Some it => Ui.KbUpdate (Ui.item_id it) d
         | None => Ui.KbInsert d
         end
    /\ Ui.data_title d
       = Ui.form_title
           (Ui.formData
              (Ui.mkManager (Ui.mkForm "Deck" "slides" "document" " a, ,b c,")
                 None true))
    /\ Ui.data_content d
       = Ui.form_content
           (Ui.formData
              (Ui.mkManager (Ui.mkForm "Deck" "slides" "document" " a, ,b c,")
                 None true))
    /\ Js.trim (Ui.data_title d) <> ""
    /\ Js.trim (Ui.data_content d) <> ""
    /\ forallb Ui.tag_ok (Ui.data_tags d) = true.
Proof.
  apply (handleSubmit_sends_valid_items
           (Ui.mkManager (Ui.mkForm "Deck" "slides" "document" " a, ,b c,")
              None true)
           (Ui.mkManager Ui.blank_form None false)
           (Some "u1") (fun _ => None) Ui.ItemAdded
           (Ui.KbInsert (Ui.mkItemData "Deck" "slides" "document" ["a"; "b c"] "u1"))).
  reflexivity.
Defined.

(* ================================================================== *)
(** ** Repeated searches *)
(* ================================================================== *)

(** X20: There is no deduplication: the same request answered twice with
    success, one run after the other, leaves two SearchQuery rows with the
    same text and fragments, carrying the ids the two responses report. *)
Theorem repeated_search_stores_twice (env1 env2 : Env) (st st1 st2 : State)
    (req : Request) (resp1 resp2 : Response)
    (a1 a2 : string) (km1 km2 : list ContextItem) (t1 t2 : Z)
    (qid1 qid2 : string) :
  handler req env1 st = (Returned resp1, st1) ->
  handler req env2 st1 = (Returned resp2, st2) ->
  payload resp1 = SuccessBody a1 km1 t1 qid1 ->
  payload resp2 = SuccessBody a2 km2 t2 qid2 ->
  exists row1 row2,
    search_queries st2 = (search_queries st ++ [row1; row2])%list
    /\ id row1 = qid1 /\ id row2 = qid2
    /\ query_text row1 = query_text row2
    /\ query_fragments row1 = query_fragments row2.
Proof.
  intros Run1 Run2 P1 P2.
  destruct (handler_success_inv env1 st req resp1 st1 a1 km1 t1 qid1 Run1 P1)
    as (b & key & r & d & Hm & Hb & Hq & Hk & Hne & Hf & Hok & Hj).
  destruct (handler_success_inv env2 st1 req resp2 st2 a2 km2 t2 qid2 Run2 P2)
    as (b' & key' & r' & d' & _ & Hb' & Hq' & Hk' & Hne' & Hf' & Hok' & Hj').
  assert (b' = b) by congruence. subst b'.
  pose proof (handler_answers env1 st req b qid1 key r d
                Hm Hb Hq Hk Hne Hf Hok Hj) as R1.
  pose proof (handler_answers env2 st1 req b qid2 key' r' d'
                Hm Hb Hq' Hk' Hne' Hf' Hok' Hj') as R2.
  cbv zeta in R1, R2. rewrite Run1 in R1. rewrite Run2 in R2.
  apply (f_equal snd) in R1, R2. cbn [snd] in R1, R2.
  exists (stored_query qid1 (query_insert_of env1 b)),
    (stored_query qid2 (query_insert_of env2 b)).
  assert (Q1 : search_queries st1
               = (search_queries st
                  ++ [stored_query qid1 (query_insert_of env1 b)])%list).
  { rewrite R1. now destruct (reply_insert_result env1 _). }
  assert (Q2 : search_queries st2
               = (search_queries st1
                  ++ [stored_query qid2 (query_insert_of env2 b)])%list).
  { rewrite R2. now destruct (reply_insert_result env2 _). }
  split.
  - rewrite Q2, Q1, <- app_assoc. reflexivity.
  - repeat split; reflexivity.
Qed.

Lemma repeated_search_stores_twice_witness :
  exists row1 row2,
    search_queries
      (snd (handler (Demo.post "deck") Demo.env_result_lost
              (snd (handler (Demo.post "deck") Demo.env_ok Demo.empty_state))))
    = (search_queries Demo.empty_state ++ [row1; row2])%list
    /\ id row1 = "q1" /\ id row2 = "q1"
    /\ query_text row1 = query_text row2
    /\ query_fragments row1 = query_fragments row2.
Proof.
  apply (repeated_search_stores_twice Demo.env_ok Demo.env_result_lost
           Demo.empty_state
           (snd (handler (Demo.post "deck") Demo.env_ok Demo.empty_state))
           (snd (handler (Demo.post "deck") Demo.env_result_lost
                   (snd (handler (Demo.post "deck") Demo.env_ok
                           Demo.empty_state))))
           (Demo.post "deck")
           (mkResponse 200 (SuccessBody "Try the Q3 deck." [Demo.deck] 250 "q1"))
           (mkResponse 200 (SuccessBody "Try the Q3 deck." [Demo.deck] 250 "q1"))
           "Try the Q3 deck." "Try the Q3 deck." [Demo.deck] [Demo.deck]
           250%Z 250%Z "q1" "q1");
    reflexivity.
Defined.

(* ================================================================== *)
(** ** What the prompt holds *)
(* ================================================================== *)

Module PromptFacts.
Import Js.

Lemma append_assoc (a b c : string) : (a ++ b) ++ c = a ++ b ++ c.
Proof. induction a as [|x a IH]; simpl; [reflexivity | now rewrite IH]. Qed.

Lemma prefix_app (w t : string) : String.prefix w (w ++ t) = true.
Proof.
  induction w as [|c w IH]; simpl; [now destruct t|].
  destruct (ascii_dec c c); [exact IH | congruence].
Qed.

Lemma includes_of_prefix (s w : string) :
  String.prefix w s = true -> includes s w = true.
Proof. intros H. destruct s; cbn [includes]; now rewrite H. Qed.

Lemma includes_app_r (p s w : string) :
  includes s w = true -> includes (p ++ s) w = true.
Proof.
  intros H. induction p as [|c p IH]; cbn [append includes]; [exact H|].
  destruct (String.prefix w (String c (p ++ s))); [reflexivity | exact IH].
Qed.

(** A string occurs in whatever is written around it. *)
Lemma includes_middle (a w b : string) : includes (a ++ w ++ b) w = true.
Proof. apply includes_app_r, includes_of_prefix, prefix_app. Qed.

(** An element of a joined list occurs in the joined text. *)
Lemma includes_join (sep : string) (xs : list string) (x : string) :
  In x xs -> exists a b, join sep xs = a ++ x ++ b.
Proof.
  unfold join. induction xs as [|y xs IH]; intros H; [destruct H|].
  destruct xs as [|z xs].
  - destruct H as [<-|[]]. exists "", "". simpl.
    clear IH. induction y as [|c y IHy]; simpl; [reflexivity | now rewrite <- IHy].
  - change (String.concat sep (y :: z :: xs))
      with (y ++ sep ++ String.concat sep (z :: xs)).
    destruct H as [<-|H].
    + exists "", (sep ++ String.concat sep (z :: xs)). reflexivity.
    + destruct (IH H) as [a [b E]]. rewrite E.
      exists (y ++ sep ++ a), b. now rewrite !append_assoc.
Qed.

Lemma prefix_app4 (a b c d r : string) :
  String.prefix (a ++ b ++ c ++ d) (a ++ b ++ c ++ d ++ r) = true.
Proof.
  replace (a ++ b ++ c ++ d ++ r) with ((a ++ b ++ c ++ d) ++ r)
    by (now rewrite !append_assoc).
  apply prefix_app.
Qed.

End PromptFacts.

(** X21: The prompt sent to the model holds the query as typed, between double
    quotes after "User's query: ", and the rendering "Title, Content, Tags"
    of every retrieved item. *)
Theorem prompt_holds_query_and_items (q : string) (items : list ContextItem) :
  Js.includes (build_prompt q items)
    ("User's query: " ++ dquote ++ q ++ dquote) = true
  /\ forall it,
       In it items ->
       Js.includes (build_prompt q items) (render_item it) = true.
Proof.
  split.
  - unfold build_prompt.
    do 3 apply PromptFacts.includes_app_r.
    apply PromptFacts.includes_of_prefix.
    apply PromptFacts.prefix_app4.
  - intros it Hin. unfold build_prompt.
    destruct (PromptFacts.includes_join nl (map render_item items)
                (render_item it) (in_map render_item items it Hin))
      as [a [b E]].
    rewrite E.
    do 11 apply PromptFacts.includes_app_r.
    rewrite !PromptFacts.append_assoc.
    apply PromptFacts.includes_app_r.
    apply PromptFacts.includes_of_prefix, PromptFacts.prefix_app.
Qed.

Lemma prompt_holds_query_and_items_witness :
  Js.includes (build_prompt "blue folder" [Demo.deck]) (render_item Demo.deck)
  = true.
Proof.
  apply (proj2 (prompt_holds_query_and_items "blue folder" [Demo.deck])).
  left. reflexivity.
Defined.
